(** * pytest-benchmark: the plugin hooks and the measurement core

    A shallow embedding of [src/pytest_benchmark/plugin.py] together with
    models of the measurement core (round runner, statistics, baseline
    comparison) that the plugin drives.

    Conventions.
    - A Python call either returns a value or raises: [result A].
    - A Python [dict] with string keys is a [gmap string _]
      ([dict(a, **b)] is the left-biased union [b ∪ a]).
    - Python objects that the hooks only pass around are values of [pyval].
    - State that a hook mutates (the logger, a marker's [kwargs] dict) is
      threaded explicitly. *)

From Stdlib Require Import ZArith QArith Qminmax Reals Qreals Psatz Lia.
From Stdlib Require Import List Permutation Sorted Ascii String.
From stdpp Require Import base option list strings pretty gmap.

Local Open Scope string_scope.
Local Open Scope list_scope.

(** ** Python values, exceptions and results *)

Module Py.

(** The values that reach the hooks as marker arguments, option values and
    parametrisation values: [None], booleans, integers, strings, functions
    (by qualified name), and [utils.NameWrapper], a plain object holding
    its target. *)
Inductive pyval : Type :=
| PyNone
| PyBool (b : bool)
| PyInt (z : Z)
| PyStr (s : string)
| PyFunc (qualname : string)
| PyNameWrapper (target : pyval).

#[global] Instance pyval_eq_dec : EqDecision pyval.
Proof. solve_decision. Defined.

(** Python truthiness of a value ([bool(v)]). *)
Definition truthy (v : pyval) : bool :=
  match v with
  | PyNone => false
  | PyBool b => b
  | PyInt z => negb (z =? 0)%Z
  | PyStr s => negb (bool_decide (s = ""))
  | PyFunc _ => true
  | PyNameWrapper _ => true
  end.

(** [a or b]. *)
Definition py_or (a b : pyval) : pyval := if truthy a then a else b.

(** Exception classes. [KeyboardInterrupt], [SystemExit] and pytest's
    outcome exception [Skipped] derive from [BaseException] only; every
    other class here derives from [Exception]. [PerformanceRegression] is
    the class of that name in session.py, [FixtureAlreadyUsed] the one
    plugin.py defines. *)
Inductive exn_class : Type :=
| ValueError
| NotImplementedError
| KeyError
| TypeError
| NameError
| PerformanceRegression
| FixtureAlreadyUsed
| Skipped
| KeyboardInterrupt
| SystemExit.

#[global] Instance exn_class_eq_dec : EqDecision exn_class.
Proof. solve_decision. Defined.

Record exn : Type := Exn { exn_cls : exn_class; exn_msg : string }.

#[global] Instance exn_eq_dec : EqDecision exn.
Proof. solve_decision. Defined.

(** [isinstance(e, Exception)]. *)
Definition is_Exception (e : exn) : bool :=
  match exn_cls e with
  | KeyboardInterrupt | SystemExit | Skipped => false
  | _ => true
  end.

Inductive result (A : Type) : Type :=
| Return (a : A)
| Raise (e : exn).
Arguments Return {A} a.
Arguments Raise {A} e.

Definition bind {A B} (r : result A) (k : A -> result B) : result B :=
  match r with
  | Return a => k a
  | Raise e => Raise e
  end.

Definition raises {A} (r : result A) (c : exn_class) : Prop :=
  exists msg, r = Raise (Exn c msg).

End Py.
Import Py.

#[global] Instance result_ret : MRet result := @Return.
#[global] Instance result_bind : MBind result := fun A B k r => Py.bind r k.

(** ** plugin.py *)

Module Plugin.

(** *** The objects the hooks receive *)

(** [MarkInfo] of the [benchmark] marker: positional and keyword
    arguments. *)
Record MarkInfo : Type := {
  mark_args : list pyval;
  mark_kwargs : gmap string pyval
}.

Record warning : Type := {
  w_code : string;
  w_text : string;
  w_fslocation : string
}.

(** What [logger.warn] and [logger.error] were called with, oldest first. *)
Record Logger : Type := {
  warnings : list warning;
  errors : list string
}.

Definition logger_warn (l : Logger) (code text fslocation : string) : Logger :=
  {| warnings := warnings l ++ [{| w_code := code; w_text := text;
                                   w_fslocation := fslocation |}];
     errors := errors l |}.

Definition logger_error (l : Logger) (text : string) : Logger :=
  {| warnings := warnings l; errors := errors l ++ [text] |}.

(** The fields of [BenchmarkSession] that plugin.py reads or updates.
    [performance_regressions] holds the verdicts of the comparison, one
    entry per violated threshold. *)
Record BenchmarkSession : Type := {
  skip : bool;
  only : bool;
  disable : bool;
  options : gmap string pyval;
  logger : Logger;
  storage_location : string;
  performance_regressions : list (string * string)
}.

Definition with_logger (bs : BenchmarkSession) (l : Logger) : BenchmarkSession :=
  {| skip := skip bs; only := only bs; disable := disable bs;
     options := options bs; logger := l;
     storage_location := storage_location bs;
     performance_regressions := performance_regressions bs |}.

(** The arguments a [BenchmarkFixture] was constructed with: the node, the
    [disable] flag and the keyword arguments unpacked from the merged
    dictionary. ([add_stats], [logger] and [warner] are bound methods of
    the session and the node.) *)
Record BenchmarkFixture : Type := {
  fx_node : string;
  fx_disable : bool;
  fx_kwargs : gmap string pyval
}.

(** *** pytest_runtest_call *)

(** An entry of [item.funcargs]. *)
Inductive funcarg : Type :=
| ArgFixture (f : BenchmarkFixture)
| ArgOther (v : pyval).

(** A test item: its name, its [benchmark] marker if any, and its
    [funcargs] ([None]: the item has no such attribute). *)
Record Item : Type := {
  item_name : string;
  item_marker : option MarkInfo;
  funcargs : option (gmap string funcarg)
}.

(** [item.get_marker("benchmark")]: the marker, or [None]. *)
Definition get_marker (item : Item) : option MarkInfo := item_marker item.

(** [d.get(k)]. *)
Definition dict_get (d : gmap string funcarg) (k : string) : funcarg :=
  default (ArgOther PyNone) (d !! k).

(** [isinstance(x, BenchmarkFixture)]. *)
Definition isinstance_BenchmarkFixture (x : funcarg) : bool :=
  match x with
  | ArgFixture _ => true
  | ArgOther _ => false
  end.

(** A hook wrapper either raises [Skipped] before it yields, or yields to
    the test call. *)
Inductive call_outcome : Type :=
| SkipTest (msg : string)
| Yield.

Definition pytest_runtest_call (bs : BenchmarkSession) (item : Item) : call_outcome :=
  let fixure :=
    match funcargs item with
    | None => ArgOther (PyBool false)
    | Some fa => dict_get fa "benchmark"
    end in
  if isinstance_BenchmarkFixture fixure then
    if skip bs then SkipTest "Skipping benchmark (--benchmark-skip active)."
    else Yield
  else
    if only bs then SkipTest "Skipping non-benchmark (--benchmark-only active)."
    else Yield.

(** The item carries a [BenchmarkFixture] under [benchmark]. *)
Definition has_benchmark_fixture (item : Item) : Prop :=
  ∃ fa f, funcargs item = Some fa ∧ fa !! "benchmark" = Some (ArgFixture f).

(** *** pytest_runtest_setup *)

Definition allowed_kwargs : list string :=
  ["max_time"; "min_rounds"; "min_time"; "timer"; "group"; "disable_gc";
   "warmup"; "warmup_iterations"; "calibration_precision"].

(** [%r] of a string, without escapes. *)
Definition repr_str (s : string) : string := "'" +:+ s +:+ "'".

(** The [for name in marker.kwargs] loop. *)
Fixpoint check_kwargs (names : list string) : result unit :=
  match names with
  | [] => Return tt
  | name :: rest =>
      if bool_decide (name ∈ allowed_kwargs) then check_kwargs rest
      else Raise (Exn ValueError
             ("benchmark mark can't have " +:+ repr_str name +:+ " keyword argument."))
  end.

(** The keys of a dict in the order iteration visits them (some order of
    the keys; which one is immaterial below). *)
Definition dict_keys {V} (d : gmap string V) : list string := (map_to_list d).*1.

Definition pytest_runtest_setup (item : Item) : result unit :=
  match get_marker item with
  | Some marker =>
      match mark_args marker with
      | _ :: _ => Raise (Exn ValueError "benchmark mark can't have positional arguments.")
      | [] => check_kwargs (dict_keys (mark_kwargs marker))
      end
  | None => Return tt
  end.

(** The marker breaks the rules of the [benchmark] mark: it has positional
    arguments, or a keyword argument that is not allowed. *)
Definition invalid_marker (marker : MarkInfo) : Prop :=
  mark_args marker ≠ []
  ∨ ∃ name, is_Some (mark_kwargs marker !! name) ∧ name ∉ allowed_kwargs.

(** *** pytest_benchmark_generate_json *)

Section GenerateJson.
(** [D] is what [bench.as_dict] returns, [I] the type of the machine and
    commit information. *)
Context {D I : Type}.

(** A benchmark as this hook sees it: the [has_error] attribute and the
    [as_dict(include_data=...)] method. *)
Record Bench : Type := {
  has_error : bool;
  as_dict : bool -> D
}.

Record OutputJson : Type := {
  oj_machine_info : I;
  oj_commit_info : I;
  oj_benchmarks : list D;
  oj_datetime : string;
  oj_version : string
}.

(** The [for bench in benchmarks] loop; [benchmarks_json] is the list
    being appended to. *)
Fixpoint generate_json_loop (benchmarks : list Bench) (include_data : bool)
    (benchmarks_json : list D) : list D :=
  match benchmarks with
  | [] => benchmarks_json
  | bench :: rest =>
      generate_json_loop rest include_data
        (if negb (has_error bench)
         then benchmarks_json ++ [as_dict bench include_data]
         else benchmarks_json)
  end.

(** [utcnow] is [datetime.utcnow().isoformat()] at the time of the call,
    [version] is [__version__]. *)
Definition pytest_benchmark_generate_json (utcnow version : string)
    (benchmarks : list Bench) (include_data : bool)
    (machine_info commit_info : I) : OutputJson :=
  {| oj_machine_info := machine_info;
     oj_commit_info := commit_info;
     oj_benchmarks := generate_json_loop benchmarks include_data [];
     oj_datetime := utcnow;
     oj_version := version |}.
End GenerateJson.
Arguments Bench D : clear implicits.
Arguments OutputJson D I : clear implicits.

(** *** pytest_benchmark_compare_machine_info *)

Section CompareMachineInfo.
(** [V]: the Python objects stored in a saved run, compared with [==];
    [format_dict] is [utils.format_dict]. *)
Context {V : Type} `{EqDecision V}.
Variable format_dict : V -> string.

Definition pytest_benchmark_compare_machine_info (benchmarksession : BenchmarkSession)
    (machine_info : V) (compared_benchmark : gmap string V) : result BenchmarkSession :=
  match compared_benchmark !! "machine_info" with
  | None => Raise (Exn KeyError (repr_str "machine_info"))
  | Some saved =>
      if bool_decide (saved ≠ machine_info) then
        Return (with_logger benchmarksession
          (logger_warn (logger benchmarksession)
             "BENCHMARK-C6"
             ("Benchmark machine_info is different. Current: "
                +:+ format_dict machine_info +:+ " VS saved: "
                +:+ format_dict saved +:+ ".")
             (storage_location benchmarksession)))
      else Return benchmarksession
  end.
End CompareMachineInfo.

(** *** The benchmark fixture *)

(** [request.node], and the fixtures whose [_cleanup] was registered with
    [request.addfinalizer]. *)
Record Request : Type := {
  req_node : Item;
  req_finalizers : list BenchmarkFixture
}.

(** [marker.kwargs if marker else {}]. *)
Definition marker_kwargs (node : Item) : gmap string pyval :=
  match get_marker node with
  | Some marker => mark_kwargs marker
  | None => ∅
  end.

(** [if "timer" in options: options["timer"] = NameWrapper(options["timer"])],
    an update in place of the dictionary [options] names. *)
Definition wrap_timer (options : gmap string pyval) : gmap string pyval :=
  match options !! "timer" with
  | Some t => <["timer" := PyNameWrapper t]> options
  | None => options
  end.

(** [dict(a, **b)]. *)
Definition dict_merge (a b : gmap string pyval) : gmap string pyval := b ∪ a.

(** The keywords the call passes by name next to the unpacked dictionary;
    a key of the dictionary among them is a [TypeError]. *)
Definition explicit_keywords : list string :=
  ["add_stats"; "logger"; "warner"; "disable"].

Definition call_BenchmarkFixture (node : Item) (disable : bool)
    (kwargs : gmap string pyval) : result BenchmarkFixture :=
  if bool_decide (Exists (λ k, k ∈ explicit_keywords) (dict_keys kwargs)) then
    Raise (Exn TypeError "got multiple values for keyword argument")
  else
    Return {| fx_node := item_name node; fx_disable := disable; fx_kwargs := kwargs |}.

(** The fixture returns the [BenchmarkFixture]; the request it leaves
    behind has the finalizer registered and, since [options] is the very
    dictionary [marker.kwargs], the marker updated by [wrap_timer]. *)
Definition benchmark (bs : BenchmarkSession) (request : Request)
    : result (BenchmarkFixture * Request) :=
  if skip bs then
    Raise (Exn Skipped "Benchmarks are skipped (--benchmark-skip was used).")
  else
    let bs_options := options bs in
    let node := req_node request in
    let options := wrap_timer (marker_kwargs node) in
    let marker := get_marker node in
    let node' :=
      {| item_name := item_name node;
         item_marker :=
           match marker with
           | Some m => Some {| mark_args := mark_args m; mark_kwargs := options |}
           | None => None
           end;
         funcargs := funcargs node |} in
    fixture ← call_BenchmarkFixture node' (disable bs) (dict_merge bs_options options);
    Return (fixture,
            {| req_node := node';
               req_finalizers := req_finalizers request ++ [fixture] |}).

(** *** pytest_benchmark_group_stats *)

(** A benchmark as the grouping reads it through [bench[...]]: [group]
    and [param] are a string or [None], [params] is [None] for a test that
    is not parametrized. *)
Record BenchStats : Type := {
  group : pyval;
  name : string;
  fullname : string;
  param : pyval;
  params : option (gmap string pyval)
}.

(** [s.split(sep)[0]]: the text before the first [sep]. *)
Fixpoint split_head (sep : ascii) (s : string) : string :=
  match s with
  | EmptyString => EmptyString
  | String c rest => if bool_decide (c = sep) then EmptyString
                     else String c (split_head sep rest)
  end.

(** [s[n:]]. *)
Fixpoint string_drop (n : nat) (s : string) : string :=
  match n, s with
  | O, _ => s
  | S n', String _ rest => string_drop n' rest
  | S _, EmptyString => EmptyString
  end.

(** [s.startswith(pre)]. *)
Fixpoint startswith (s pre : string) {struct pre} : bool :=
  match pre, s with
  | EmptyString, _ => true
  | String a pre', String b s' => bool_decide (a = b) && startswith s' pre'
  | String _ _, EmptyString => false
  end.

(** [sub in s]. *)
Fixpoint contains (sub s : string) : bool :=
  startswith s sub ||
  match s with
  | EmptyString => false
  | String _ rest => contains sub rest
  end.

(** The number a value compares as: [bool] is a subclass of [int]. *)
Definition as_number (v : pyval) : option Z :=
  match v with
  | PyInt z => Some z
  | PyBool b => Some (if b then 1 else 0)%Z
  | _ => None
  end.

(** [a == b] (and equal hashes), as a dictionary compares its keys. *)
Definition key_eq (a b : pyval) : bool :=
  match as_number a, as_number b with
  | Some x, Some y => (x =? y)%Z
  | None, None => bool_decide (a = b)
  | _, _ => false
  end.

(** [a < b] with the rules of Python 3: strings by code point, numbers by
    value, anything else is a [TypeError]. *)
Definition py_lt (a b : pyval) : result bool :=
  match a, b with
  | PyStr s, PyStr t => Return (String.ltb s t)
  | _, _ =>
      match as_number a, as_number b with
      | Some x, Some y => Return (x <? y)%Z
      | _, _ => Raise (Exn TypeError "'<' not supported between instances")
      end
  end.

(** [groups[key].append(bench)] on a [defaultdict(list)]; the dictionary
    keeps its keys in the order they were first inserted. *)
Fixpoint groups_append (groups : list (pyval * list BenchStats)) (key : pyval)
    (bench : BenchStats) : list (pyval * list BenchStats) :=
  match groups with
  | [] => [(key, [bench])]
  | (k, g) :: rest =>
      if key_eq k key then (k, g ++ [bench]) :: rest
      else (k, g) :: groups_append rest key bench
  end.

(** The key one pass of the [if]/[elif] chain files [bench] under. *)
Definition group_key (group_by : string) (bench : BenchStats) : result pyval :=
  if bool_decide (group_by = "group") then Return (group bench)
  else if bool_decide (group_by = "name") then Return (PyStr (name bench))
  else if bool_decide (group_by = "func") then
    Return (PyStr (split_head "["%char (name bench)))
  else if bool_decide (group_by = "fullfunc") then
    Return (PyStr (split_head "["%char (fullname bench)))
  else if bool_decide (group_by = "fullname") then Return (PyStr (fullname bench))
  else if bool_decide (group_by = "param") then Return (param bench)
  else if startswith group_by "param:" then
    let param_name := string_drop (String.length "param:") group_by in
    match params bench with
    | None => Raise (Exn TypeError "'NoneType' object is not subscriptable")
    | Some ps =>
        match ps !! param_name with
        | Some param_value => Return param_value
        | None => Raise (Exn KeyError (repr_str param_name))
        end
    end
  else Raise (Exn NotImplementedError
                ("Unsupported grouping " +:+ repr_str group_by +:+ ".")).

Fixpoint group_loop (group_by : string) (benchmarks : list BenchStats)
    (groups : list (pyval * list BenchStats))
    : result (list (pyval * list BenchStats)) :=
  match benchmarks with
  | [] => Return groups
  | bench :: rest =>
      key ← group_key group_by bench;
      group_loop group_by rest (groups_append groups key bench)
  end.

(** [sorted(l, key=key)] and [l.sort(key=key)]: a stable sort that compares
    keys with [<]. Every stable sort returns the same list, so insertion
    from the right stands for the library's merge sort; a comparison that
    raises ends the sort. *)
Section Sorted.
Context {A : Type}.
Variable key : A -> pyval.

Fixpoint insert_by (x : A) (l : list A) : result (list A) :=
  match l with
  | [] => Return [x]
  | y :: l' =>
      b ← py_lt (key y) (key x);
      if b : bool then (r ← insert_by x l'; Return (y :: r))
      else Return (x :: y :: l')
  end.

Fixpoint sorted_by (l : list A) : result (list A) :=
  match l with
  | [] => Return []
  | x :: l' => s ← sorted_by l'; insert_by x s
  end.
End Sorted.

(** [operator.itemgetter(field)] for the two fields the hook sorts on. *)
Definition itemgetter (field : string) (bench : BenchStats) : pyval :=
  if bool_decide (field = "fullname") then PyStr (fullname bench)
  else PyStr (name bench).

(** The loop over [groups.values()], sorting every list in place. *)
Fixpoint sort_groups (field : string) (groups : list (pyval * list BenchStats))
    : result (list (pyval * list BenchStats)) :=
  match groups with
  | [] => Return []
  | (k, grouped_benchmarks) :: rest =>
      g ← sorted_by (itemgetter field) grouped_benchmarks;
      rest' ← sort_groups field rest;
      Return ((k, g) :: rest')
  end.

Definition pytest_benchmark_group_stats (benchmarks : list BenchStats)
    (group_by : string) : result (list (pyval * list BenchStats)) :=
  groups ← group_loop group_by benchmarks [];
  groups ← sort_groups (if contains "full" group_by then "fullname" else "name") groups;
  sorted_by (λ pair, py_or pair.1 (PyStr "")) groups.

(** The values [group_by] may take according to the help of
    [--benchmark-group-by]: one of six labels, or [param:NAME]. *)
Definition supported (group_by : string) : Prop :=
  group_by ∈ ["group"; "name"; "func"; "fullfunc"; "fullname"; "param"]
  ∨ startswith group_by "param:" = true.

(** The key the final sort compares a pair by: [pair[0] or ""]. *)
Definition sort_key (k : pyval) : pyval := py_or k (PyStr "").

Definition is_str (v : pyval) : bool :=
  match v with
  | PyStr _ => true
  | _ => false
  end.

Definition is_number (v : pyval) : bool :=
  match as_number v with
  | Some _ => true
  | None => false
  end.

(** Keys the final sort can compare with one another: after [or ""] they
    are all strings, or all numbers. *)
Definition comparable (keys : list pyval) : Prop :=
  Forall (λ k, is_str (sort_key k) = true) keys
  ∨ Forall (λ k, is_number (sort_key k) = true) keys.

(** No two keys of the list are equal as dictionary keys. *)
Fixpoint keys_distinct (keys : list pyval) : Prop :=
  match keys with
  | [] => True
  | k :: rest => Forall (λ k', key_eq k k' = false) rest ∧ keys_distinct rest
  end.

(** [a] is not after [b] in the order of [<]. *)
Definition not_after (a b : pyval) : Prop := py_lt b a = Return false.

(** The group holds at least one benchmark, and every benchmark in it is
    filed under the key of the group. *)
Definition filed_under (group_by : string) (pair : pyval * list BenchStats) : Prop :=
  pair.2 ≠ []
  ∧ Forall (λ b, ∃ k, group_key group_by b = Return k ∧ key_eq pair.1 k = true) pair.2.

(** The text the benchmarks of a group are ordered by. *)
Definition sort_field (group_by : string) (bench : BenchStats) : string :=
  if contains "full" group_by then fullname bench else name bench.

(** *** pytest_terminal_summary *)

(** What a module-level name is bound to, as far as an [except] clause
    cares. *)
Inductive binding : Type :=
| NotAClass
| ExceptionClass (c : exn_class).

(** The classes an [except] clause can name: the builtin [Exception], or
    one exception class. *)
Inductive pyclass : Type :=
| ClsException
| ClsOf (c : exn_class).

Definition isinstance_exn (e : exn) (c : pyclass) : bool :=
  match c with
  | ClsException => is_Exception e
  | ClsOf c => bool_decide (exn_cls e = c)
  end.

(** The global names of plugin.py once the module body has run, in the
    order the statements bind them: the imports, the classes, the
    functions and [_hookwrapper]. ([Stats] is bound when the [statistics]
    module imports, [statistics_error] when it does not.) *)
Definition plugin_globals : list (string * binding) :=
  map (λ n, (n, NotAClass))
    ["division"; "print_function"; "argparse"; "operator"; "platform"; "sys";
     "traceback"; "defaultdict"; "datetime"; "pytest"; "__version__";
     "BenchmarkFixture"; "BenchmarkSession"; "default_timer"; "NameWrapper";
     "format_dict"; "get_commit_info"; "get_current_time"; "get_tag";
     "parse_columns"; "parse_compare_fail"; "parse_rounds"; "parse_save";
     "parse_seconds"; "parse_sort"; "parse_timer"; "parse_warmup";
     "statistics"; "statistics_error"; "Stats"]
  ++ [("FixtureAlreadyUsed", ExceptionClass FixtureAlreadyUsed)]
  ++ map (λ n, (n, NotAClass))
    ["pytest_report_header"; "add_display_options"; "add_global_options";
     "pytest_addoption"; "pytest_addhooks";
     "pytest_benchmark_compare_machine_info"; "_hookwrapper";
     "pytest_runtest_call"; "pytest_benchmark_group_stats";
     "pytest_sessionfinish"; "pytest_terminal_summary";
     "pytest_benchmark_generate_machine_info";
     "pytest_benchmark_generate_commit_info";
     "pytest_benchmark_generate_json"; "benchmark"; "benchmark_weave";
     "pytest_runtest_setup"; "pytest_configure"].

Fixpoint assoc {B} (n : string) (l : list (string * B)) : option B :=
  match l with
  | [] => None
  | (k, v) :: rest => if bool_decide (k = n) then Some v else assoc n rest
  end.

(** Evaluating the name of an [except] clause: the module's globals, then
    the builtins. *)
Definition load_class (globals : list (string * binding)) (n : string) : result pyclass :=
  match assoc n globals with
  | Some (ExceptionClass c) => Return (ClsOf c)
  | Some NotAClass =>
      Raise (Exn TypeError
        "catching classes that do not inherit from BaseException is not allowed")
  | None =>
      if bool_decide (n = "Exception") then Return ClsException
      else Raise (Exn NameError ("name " +:+ repr_str n +:+ " is not defined"))
  end.

Definition newline : string := String (ascii_of_nat 10) EmptyString.

Section TerminalSummary.
(** [globals]: the namespace the function body runs in.
    [format_exc]: [traceback.format_exc()] while the exception is being
    handled. *)
Variable globals : list (string * binding).
Variable format_exc : exn -> string.

(** [display] is the outcome of
    [terminalreporter.config._benchmarksession.display(terminalreporter)]
    and [log] the session's logger after it. *)
Definition pytest_terminal_summary (display : result unit) (log : Logger)
    : result unit * Logger :=
  match display with
  | Return _ => (Return tt, log)
  | Raise e =>
      match load_class globals "PerformanceRegression" with
      | Raise e' => (Raise e', log)
      | Return c =>
          if isinstance_exn e c then (Raise e, log)
          else
            match load_class globals "Exception" with
            | Raise e' => (Raise e', log)
            | Return c' =>
                if isinstance_exn e c' then
                  (Raise e, logger_error log (newline +:+ format_exc e))
                else (Raise e, log)
            end
      end
  end.
End TerminalSummary.

(** *** pytest_report_header *)

(** [d[k]]. *)
Definition dict_getitem (d : gmap string pyval) (k : string) : result pyval :=
  match d !! k with
  | Some v => Return v
  | None => Raise (Exn KeyError (repr_str k))
  end.

Section ReportHeader.
(** [str] is what [format] renders a value as. *)
Variable str : pyval -> string.

(** [str.format] resolves the fields of the template from left to right:
    [version] and [timer] are keyword arguments ([timer] being
    [bs.options.get("timer")]), the seven others index [bs.options]. *)
Definition pytest_report_header (version : string) (bs : BenchmarkSession)
    : result string :=
  let timer := default PyNone (options bs !! "timer") in
  disable_gc ← dict_getitem (options bs) "disable_gc";
  min_rounds ← dict_getitem (options bs) "min_rounds";
  min_time ← dict_getitem (options bs) "min_time";
  max_time ← dict_getitem (options bs) "max_time";
  calibration_precision ← dict_getitem (options bs) "calibration_precision";
  warmup ← dict_getitem (options bs) "warmup";
  warmup_iterations ← dict_getitem (options bs) "warmup_iterations";
  Return ("benchmark: " +:+ version +:+ " (defaults:"
          +:+ " timer=" +:+ str timer
          +:+ " disable_gc=" +:+ str disable_gc
          +:+ " min_rounds=" +:+ str min_rounds
          +:+ " min_time=" +:+ str min_time
          +:+ " max_time=" +:+ str max_time
          +:+ " calibration_precision=" +:+ str calibration_precision
          +:+ " warmup=" +:+ str warmup
          +:+ " warmup_iterations=" +:+ str warmup_iterations
          +:+ ")").
End ReportHeader.

(** The options the header indexes, in the order of the template. *)
Definition header_keys : list string :=
  ["disable_gc"; "min_rounds"; "min_time"; "max_time"; "calibration_precision";
   "warmup"; "warmup_iterations"].

(** *** pytest_benchmark_generate_machine_info *)

(** [sys.pypy_version_info]. *)
Record PyPyVersionInfo : Type := {
  major : Z;
  minor : Z;
  micro : Z;
  releaselevel : string;
  serial : Z
}.

(** What the [platform] module and [sys] report on the running
    interpreter. [pypy_version_info] is read on PyPy only. *)
Record Platform : Type := {
  node : string;
  processor : string;
  machine : string;
  python_compiler : string;
  python_implementation : string;
  python_version : string;
  python_build : string * string;
  release : string;
  system : string;
  pypy_version_info : PyPyVersionInfo
}.

(** A value of the machine information: a string, or the pair
    [platform.python_build()] returns. *)
Inductive info : Type :=
| InfoStr (s : string)
| InfoPair (a b : string).

#[global] Instance info_eq_dec : EqDecision info.
Proof. solve_decision. Defined.

(** ['%d.%d.%d' % sys.pypy_version_info[:3]], followed by
    ['-%s%d' % sys.pypy_version_info[3:]] unless the release level is
    [final]. *)
Definition pypy_version (v : PyPyVersionInfo) : string :=
  let base := pretty (major v) +:+ "." +:+ pretty (minor v) +:+ "." +:+ pretty (micro v) in
  if bool_decide (releaselevel v ≠ "final")
  then base +:+ "-" +:+ releaselevel v +:+ pretty (serial v)
  else base.

Definition pytest_benchmark_generate_machine_info (p : Platform) : gmap string info :=
  let python_implementation_version :=
    if bool_decide (python_implementation p = "PyPy")
    then pypy_version (pypy_version_info p)
    else python_version p in
  {[ "node" := InfoStr (node p);
     "processor" := InfoStr (processor p);
     "machine" := InfoStr (machine p);
     "python_compiler" := InfoStr (python_compiler p);
     "python_implementation" := InfoStr (python_implementation p);
     "python_implementation_version" := InfoStr python_implementation_version;
     "python_version" := InfoStr (python_version p);
     "python_build" := InfoPair (python_build p).1 (python_build p).2;
     "release" := InfoStr (release p);
     "system" := InfoStr (system p) ]}.

(** The keys of the machine information. *)
Definition machine_info_keys : list string :=
  ["node"; "processor"; "machine"; "python_compiler"; "python_implementation";
   "python_implementation_version"; "python_version"; "python_build"; "release";
   "system"].


End Plugin.

(** ** The measurement core

    fixture.py, stats.py, session.py and utils.py are outside this
    development's sources; the three modules below follow the design
    document of the core. Durations are exact rationals (seconds). *)

Definition Qlt_bool (a b : Q) : bool := negb (Qle_bool b a).

(** *** Round runner *)

Module RoundRunner.

(** Modelled from the spec: the budget fields of the [Configuration] the
    round runner is given (fixture.py is not among the sources). *)
Record Configuration : Type := {
  min_time : Q;
  max_time : Q;
  min_rounds : nat;
  calibration_precision : Z;
  warmup_iterations : Z
}.

(** The defaults [pytest_addoption] declares for [--benchmark-min-time],
    [--benchmark-max-time], [--benchmark-min-rounds],
    [--benchmark-calibration-precision] and
    [--benchmark-warmup-iterations]. *)
Definition default_configuration : Configuration :=
  {| min_time := 5 # 1000000;
     max_time := 1;
     min_rounds := 5;
     calibration_precision := 10%Z;
     warmup_iterations := 100000%Z |}.

(** Modelled from the spec: the states of the round runner. *)
Inductive phase : Type :=
| Idle
| Calibrating
| Warming
| Measuring
| Sealed
| Errored.

(** Modelled from the spec: the [BenchmarkRun] of the round runner
    (fixture.py is not among the sources). The elapsed duration of every
    executed round, oldest first, the loops per round and the error
    flag. *)
Record BenchmarkRun : Type := {
  rounds : list Q;
  loops_per_round : positive;
  has_error : bool
}.

Definition executed_rounds (run : BenchmarkRun) : nat := length (rounds run).

Definition total (durations : list Q) : Q := fold_right Qplus 0%Q durations.

Definition cumulative_elapsed (run : BenchmarkRun) : Q := total (rounds run).

Definition append_round (run : BenchmarkRun) (elapsed : Q) : BenchmarkRun :=
  {| rounds := rounds run ++ [elapsed];
     loops_per_round := loops_per_round run;
     has_error := has_error run |}.

Definition flag_error (run : BenchmarkRun) : BenchmarkRun :=
  {| rounds := rounds run;
     loops_per_round := loops_per_round run;
     has_error := true |}.

Section Runner.
Variable cfg : Configuration.
(** The world the runner measures: [candidate i] is the difference of the
    two timer readings around round [i], or [None] when the candidate
    operation raises in that round; [stop_requested n] tells whether an
    external stop is pending after [n] rounds. *)
Variable candidate : nat -> option Q.
Variable stop_requested : nat -> bool.

(** Modelled from the spec: the stopping rule of the round runner,
    evaluated after each round: continue while
    [executed_rounds < min_rounds], or
    [cumulative_elapsed < max_time] and no external stop is requested. *)
Definition continue (run : BenchmarkRun) : bool :=
  (executed_rounds run <? min_rounds cfg)%nat
  || (Qlt_bool (cumulative_elapsed run) (max_time cfg)
      && negb (stop_requested (executed_rounds run))).

(** Modelled from the spec: one iteration of the [Measuring] state. A
    round is timed and appended, then the stopping rule decides between
    [Measuring] and [Sealed]; a candidate that raises moves the run to
    [Errored]. Every other state is left as it is. *)
Definition step (st : phase * BenchmarkRun) : phase * BenchmarkRun :=
  match st with
  | (Measuring, run) =>
      match candidate (executed_rounds run) with
      | None => (Errored, flag_error run)
      | Some elapsed =>
          let run' := append_round run elapsed in
          if continue run' then (Measuring, run') else (Sealed, run')
      end
  | _ => st
  end.

(** Modelled from the spec: the measuring loop, cut off after [fuel]
    iterations. *)
Fixpoint measure (fuel : nat) (st : phase * BenchmarkRun) : phase * BenchmarkRun :=
  match fuel with
  | O => st
  | S fuel' => measure fuel' (step st)
  end.

(** Modelled from the spec: the run as calibration hands it to the
    measuring loop. *)
Definition start (loops : positive) : phase * BenchmarkRun :=
  (Measuring, {| rounds := []; loops_per_round := loops; has_error := false |}).
End Runner.

End RoundRunner.

(** *** Stats engine *)

Module StatsEngine.

Local Open Scope Q_scope.

(** Ascending order by insertion. *)
Fixpoint insert (x : Q) (l : list Q) : list Q :=
  match l with
  | [] => [x]
  | y :: l' => if Qle_bool x y then x :: l else y :: insert x l'
  end.

Definition sort (l : list Q) : list Q := fold_right insert [] l.

Definition total (l : list Q) : Q := fold_right Qplus 0 l.

Definition count (l : list Q) : Q := inject_Z (Z.of_nat (length l)).

Definition minimum (x : Q) (l : list Q) : Q := fold_right Qmin x l.

Definition maximum (x : Q) (l : list Q) : Q := fold_right Qmax x l.

(** Modelled from the spec: the mean is the arithmetic average. *)
Definition compute_mean (l : list Q) : Q := total l / count l.

(** Modelled from the spec: the median is the middle element of the sorted
    sequence, or the average of the two central elements when its length
    is even. *)
Definition median_of (sorted : list Q) : Q :=
  let n := length sorted in
  if Nat.even n
  then (nth (n / 2 - 1) sorted 0 + nth (n / 2) sorted 0) / 2
  else nth (n / 2) sorted 0.

(** Modelled from the spec: the two halves the quartiles are the medians
    of; for an odd length both contain the middle element (so that the
    durations 1, 2, 3, 4, 5 have the quartiles 2 and 4). *)
Definition lower_half (sorted : list Q) : list Q :=
  firstn ((length sorted + 1) / 2) sorted.

Definition upper_half (sorted : list Q) : list Q :=
  skipn (length sorted / 2) sorted.

Definition sum_sq_dev (l : list Q) : Q :=
  let m := compute_mean l in
  fold_right (λ x acc, (x - m) * (x - m) + acc) 0 l.

(** Modelled from the spec: the sample variance, with the [n - 1]
    denominator. *)
Definition variance (l : list Q) : Q := sum_sq_dev l / (count l - 1).

(** Modelled from the spec: the sample standard deviation, defined as [0]
    for a single round. *)
Definition compute_stddev (l : list Q) : R :=
  if (length l =? 1)%nat then 0%R else sqrt (Q2R (variance l)).

(** Modelled from the spec: the number of samples outside the fence
    [[q1 - 1.5 iqr, q3 + 1.5 iqr]]. *)
Definition count_outliers (q1 q3 : Q) (l : list Q) : nat :=
  let iqr := q3 - q1 in
  let lo := q1 - (3 # 2) * iqr in
  let hi := q3 + (3 # 2) * iqr in
  length (filter (λ x, Qlt_bool x lo || Qlt_bool hi x) l).

(** Modelled from the spec: the [StatsRecord] (stats.py is not among the
    sources). [ops] is [None] where [1 / mean] is undefined. *)
Record StatsRecord : Type := {
  min : Q;
  max : Q;
  mean : Q;
  stddev : R;
  median : Q;
  q1 : Q;
  q3 : Q;
  iqr : Q;
  outliers : nat;
  ops : option Q;
  rounds : nat;
  iterations : N
}.

(** Modelled from the spec: the reduction of the per-iteration durations
    [data] of a run of [loops] loops per round to its record; there is
    none for an empty sequence. *)
Definition compute_stats (loops : positive) (data : list Q) : option StatsRecord :=
  match data with
  | [] => None
  | x :: rest =>
      let sorted := sort data in
      let m := compute_mean data in
      let lo := median_of (lower_half sorted) in
      let hi := median_of (upper_half sorted) in
      Some {| min := minimum x rest;
              max := maximum x rest;
              mean := m;
              stddev := compute_stddev data;
              median := median_of sorted;
              q1 := lo;
              q3 := hi;
              iqr := hi - lo;
              outliers := count_outliers lo hi data;
              ops := if Qeq_bool m 0 then None else Some (1 / m);
              rounds := length data;
              iterations := (N.of_nat (length data) * Npos loops)%N |}
  end.

(** Each round's duration divided by the loops per round. *)
Definition normalize (loops : positive) (durations : list Q) : list Q :=
  map (λ d, d / inject_Z (Zpos loops)) durations.

(** Modelled from the spec: a record is derived from a sealed run only,
    and never from one flagged as errored. *)
Definition stats_of_run (st : RoundRunner.phase * RoundRunner.BenchmarkRun)
    : option StatsRecord :=
  match st with
  | (RoundRunner.Sealed, run) =>
      if RoundRunner.has_error run then None
      else compute_stats (RoundRunner.loops_per_round run)
             (normalize (RoundRunner.loops_per_round run) (RoundRunner.rounds run))
  | _ => None
  end.

End StatsEngine.

(** *** Baseline comparator *)

Module BaselineComparator.

Local Open Scope Q_scope.

(** Modelled from the spec: the statistics a threshold expression can
    name (utils.py and session.py are not among the sources). *)
Inductive metric : Type :=
| m_min | m_max | m_mean | m_stddev | m_median | m_iqr
| m_outliers | m_ops | m_rounds | m_iterations.

#[global] Instance metric_eq_dec : EqDecision metric.
Proof. solve_decision. Defined.

Definition metric_of_string (s : string) : option metric :=
  if bool_decide (s = "min") then Some m_min
  else if bool_decide (s = "max") then Some m_max
  else if bool_decide (s = "mean") then Some m_mean
  else if bool_decide (s = "stddev") then Some m_stddev
  else if bool_decide (s = "median") then Some m_median
  else if bool_decide (s = "iqr") then Some m_iqr
  else if bool_decide (s = "outliers") then Some m_outliers
  else if bool_decide (s = "ops") then Some m_ops
  else if bool_decide (s = "rounds") then Some m_rounds
  else if bool_decide (s = "iterations") then Some m_iterations
  else None.

(** Modelled from the spec: a tolerance is a percentage of the baseline, or
    a number of seconds. *)
Inductive threshold : Type :=
| Percentage (percentage : Q)
| Absolute (seconds : Q).

(** The text before the first [sep] and, when there is one, the text
    after it. *)
Fixpoint split_on (sep : ascii) (s : string) : string * option string :=
  match s with
  | EmptyString => (EmptyString, None)
  | String c rest =>
      if bool_decide (c = sep) then (EmptyString, Some rest)
      else let '(before, after) := split_on sep rest in (String c before, after)
  end.

Definition digit (c : ascii) : option Z :=
  let n := nat_of_ascii c in
  if ((48 <=? n) && (n <=? 57))%nat then Some (Z.of_nat (n - 48)) else None.

(** The value of a run of decimal digits read after [acc], and how many
    there were. *)
Fixpoint digits (s : string) (acc : Z) (len : nat) : option (Z * nat) :=
  match s with
  | EmptyString => Some (acc, len)
  | String c rest =>
      match digit c with
      | Some d => digits rest (acc * 10 + d)%Z (S len)
      | None => None
      end
  end.

(** Modelled from the spec: a bare number, read in decimal notation:
    digits, optionally a point and more digits, at least one digit in
    all. *)
Definition parse_number (s : string) : option Q :=
  let '(whole, fraction) := split_on "."%char s in
  match digits whole 0%Z 0%nat with
  | None => None
  | Some (w, wl) =>
      match fraction with
      | None => if (wl =? 0)%nat then None else Some (inject_Z w)
      | Some f =>
          match digits f w 0%nat with
          | None => None
          | Some (v, fl) =>
              if (wl + fl =? 0)%nat then None
              else Some (Qmake v (Z.to_pos (10 ^ Z.of_nat fl)))
          end
      end
  end.

(** [s] without its last character when that is [last]. *)
Fixpoint strip_last (last : ascii) (s : string) : option string :=
  match s with
  | EmptyString => None
  | String c EmptyString => if bool_decide (c = last) then Some EmptyString else None
  | String c rest => String c <$> strip_last last rest
  end.

Definition parse_threshold (s : string) : option threshold :=
  match strip_last "%"%char s with
  | Some number => Percentage <$> parse_number number
  | None => Absolute <$> parse_number s
  end.

(** Modelled from the spec: a threshold expression [metric:threshold]
    (utils.py, where the plugin's [parse_compare_fail] lives, is not among
    the sources). An unknown metric is rejected here. *)
Definition parse_compare_fail (s : string) : option (metric * threshold) :=
  match split_on ":"%char s with
  | (m, Some t) =>
      match metric_of_string m, parse_threshold t with
      | Some m, Some t => Some (m, t)
      | _, _ => None
      end
  | (_, None) => None
  end.

Inductive verdict : Type :=
| Pass
| Fail.

#[global] Instance verdict_eq_dec : EqDecision verdict.
Proof. solve_decision. Defined.

(** Modelled from the spec: the verdict of one expression on the value of
    its metric in the baseline and in the current run. *)
Definition judge (t : threshold) (baseline_metric current_metric : Q) : verdict :=
  match t with
  | Percentage percentage =>
      if Qlt_bool (baseline_metric * (1 + percentage / 100)) current_metric
      then Fail else Pass
  | Absolute seconds =>
      if Qlt_bool (baseline_metric + seconds) current_metric
      then Fail else Pass
  end.

(** Modelled from the spec: the verdict of an expression on two records,
    each read as the value it holds under each metric. *)
Definition evaluate (expr : metric * threshold) (baseline current : metric -> Q) : verdict :=
  judge expr.2 (baseline expr.1) (current expr.1).

(** Modelled from the spec: every requested expression is evaluated; the
    violated ones are collected. *)
Definition violations (exprs : list (metric * threshold))
    (baseline current : metric -> Q) : list (metric * threshold) :=
  filter (λ e, bool_decide (evaluate e baseline current = Fail)) exprs.

(** A record whose mean is [v]. *)
Definition with_mean (v : Q) (m : metric) : Q :=
  match m with
  | m_mean => v
  | _ => 0
  end.

End BaselineComparator.


(** * Properties of the plugin hooks *)

Module PluginFacts.
Import Plugin.

(** ** pytest_runtest_call *)

Lemma fixure_is_fixture item :
  has_benchmark_fixture item ↔
  isinstance_BenchmarkFixture
    (match funcargs item with
     | None => ArgOther (PyBool false)
     | Some fa => dict_get fa "benchmark"
     end) = true.
Proof.
  unfold has_benchmark_fixture, dict_get. split.
  - intros (fa & f & -> & Hf). by rewrite Hf.
  - destruct (funcargs item) as [fa|]; [|done].
    destruct (fa !! "benchmark") as [[f|v]|] eqn:E; try done.
    intros _. by exists fa, f.
Qed.

Ltac outcome_cases :=
  repeat match goal with
    | |- _ ∧ _ => split
    | |- _ ↔ _ => split
    | |- _ → _ => intros ?
    | |- ¬ _ => intros ?
    | H : ∃ _, _ |- _ => destruct H as [? ?]
    end;
  try done; try congruence; eauto;
  try match goal with
    | H : ¬ _ |- _ => solve [exfalso; apply H; eauto]
    end.

(** C10: [pytest_runtest_call] skips an item that carries a
    [BenchmarkFixture] under [benchmark] exactly when the session's [skip]
    flag is set, skips an item without one exactly when the [only] flag is
    set, and in every other case yields to the test. *)
Theorem runtest_call_skip_rules (bs : BenchmarkSession) (item : Item) :
  (has_benchmark_fixture item →
     ((∃ msg, pytest_runtest_call bs item = SkipTest msg) ↔ skip bs = true))
  ∧ (¬ has_benchmark_fixture item →
     ((∃ msg, pytest_runtest_call bs item = SkipTest msg) ↔ only bs = true))
  ∧ ((¬ ∃ msg, pytest_runtest_call bs item = SkipTest msg) ↔
     pytest_runtest_call bs item = Yield).
Proof.
  pose proof (fixure_is_fixture item) as Hfx.
  unfold pytest_runtest_call.
  destruct (isinstance_BenchmarkFixture _) eqn:Efx.
  - assert (has_benchmark_fixture item) as Hhas by (by apply Hfx).
    clear Hfx. destruct (skip bs); outcome_cases.
  - assert (¬ has_benchmark_fixture item) as Hnot.
    { intros H. apply Hfx in H. congruence. }
    clear Hfx. destruct (only bs); outcome_cases.
Qed.

(** ** pytest_runtest_setup *)

Lemma check_kwargs_ok names :
  Forall (λ n, n ∈ allowed_kwargs) names → check_kwargs names = Return tt.
Proof.
  induction 1 as [|n names Hn _ IH]; simpl; [done|].
  by rewrite bool_decide_true.
Qed.

Lemma check_kwargs_bad names :
  Exists (λ n, n ∉ allowed_kwargs) names → raises (check_kwargs names) ValueError.
Proof.
  induction names as [|n names IH]; intros Hex; simpl.
  - by apply Exists_nil in Hex.
  - case_bool_decide as Hn.
    + apply IH. apply Exists_cons in Hex as [?|?]; [done|assumption].
    + unfold raises. eauto.
Qed.

Lemma elem_of_dict_keys {V} (d : gmap string V) k :
  k ∈ dict_keys d ↔ is_Some (d !! k).
Proof.
  unfold dict_keys. rewrite list_elem_of_fmap. split.
  - intros ([k' v] & -> & Hin). apply elem_of_map_to_list in Hin. eauto.
  - intros [v Hv]. exists (k, v). split; [done|]. by apply elem_of_map_to_list.
Qed.

(** C7: for an item that carries a [benchmark] marker, [pytest_runtest_setup]
    raises [ValueError] exactly when the marker has positional arguments or
    a keyword argument outside the nine allowed names, and returns normally
    otherwise. *)
Theorem runtest_setup_validates_marker (item : Item) (marker : MarkInfo) :
  get_marker item = Some marker →
  (raises (pytest_runtest_setup item) ValueError ↔ invalid_marker marker)
  ∧ (pytest_runtest_setup item = Return tt ↔ ¬ invalid_marker marker).
Proof.
  intros Hm. unfold pytest_runtest_setup, invalid_marker. rewrite Hm.
  destruct (mark_args marker) as [|a args].
  - destruct (decide (Forall (λ n, n ∈ allowed_kwargs) (dict_keys (mark_kwargs marker))))
      as [Hall|Hnall].
    + rewrite (check_kwargs_ok _ Hall).
      assert (¬ ∃ name, is_Some (mark_kwargs marker !! name) ∧ name ∉ allowed_kwargs) as Hno.
      { intros (n & Hn & Hbad). apply Hbad.
        rewrite Forall_forall in Hall. apply Hall. by apply elem_of_dict_keys. }
      split; split; try done.
      * intros [msg Hr]. discriminate.
      * intros [?|?]; done.
      * intros _ [?|?]; done.
    + apply not_Forall_Exists in Hnall; [|apply _].
      pose proof (check_kwargs_bad _ Hnall) as [msg Hr]. rewrite Hr.
      assert (∃ name, is_Some (mark_kwargs marker !! name) ∧ name ∉ allowed_kwargs) as Hyes.
      { apply Exists_exists in Hnall as (n & Hin & Hbad).
        exists n. split; [|done]. by apply elem_of_dict_keys. }
      split; split; try done.
      * intros _. by right.
      * intros _. by exists msg.
      * intros Hn. exfalso. apply Hn. by right.
  - split; split; try done.
    + intros _. by left.
    + intros _. unfold raises. eauto.
    + intros Hn. exfalso. apply Hn. by left.
Qed.

Lemma runtest_setup_validates_marker_witness :
  let marker := {| mark_args := [];
                   mark_kwargs := {[ "group" := PyStr "io"; "rounds" := PyInt 3 ]} |} in
  let item := {| item_name := "test_read"; item_marker := Some marker;
                 funcargs := None |} in
  raises (pytest_runtest_setup item) ValueError ↔ invalid_marker marker.
Proof.
  intros marker item.
  exact (proj1 (runtest_setup_validates_marker item marker eq_refl)).
Defined.

Lemma runtest_call_skip_rules_witness :
  let fixture := {| fx_node := "test_read"; fx_disable := false; fx_kwargs := ∅ |} in
  let item := {| item_name := "test_read"; item_marker := None;
                 funcargs := Some {[ "benchmark" := ArgFixture fixture ]} |} in
  let bs := {| skip := true; only := false; disable := false; options := ∅;
               logger := {| warnings := []; errors := [] |};
               storage_location := ".benchmarks";
               performance_regressions := [] |} in
  (∃ msg, pytest_runtest_call bs item = SkipTest msg) ↔ skip bs = true.
Proof.
  intros fixture item bs.
  apply (proj1 (runtest_call_skip_rules bs item)).
  exists {[ "benchmark" := ArgFixture fixture ]}, fixture. split; reflexivity.
Defined.

(** ** pytest_benchmark_generate_json *)

Section GenerateJsonFacts.
Context {D I : Type}.
Implicit Types (benchmarks : list (Bench D)) (acc : list D).

Lemma generate_json_loop_spec benchmarks include_data acc :
  generate_json_loop benchmarks include_data acc =
  acc ++ ((λ b, as_dict b include_data) <$> filter (λ b, has_error b = false) benchmarks).
Proof.
  revert acc. induction benchmarks as [|b rest IH]; intros acc; simpl.
  - by rewrite app_nil_r.
  - rewrite IH. destruct (has_error b) eqn:E; simpl.
    + rewrite filter_cons_False; [done|]. by rewrite E.
    + rewrite filter_cons_True by done. by rewrite <- app_assoc.
Qed.

(** C4: for every list of benchmarks, the report [pytest_benchmark_generate_json]
    builds holds, in the order of the input, the [as_dict] of exactly the
    benchmarks whose [has_error] flag is false: a benchmark flagged as
    errored contributes nothing, every other one contributes its entry. *)
Theorem generate_json_skips_errored (utcnow version : string) benchmarks
    (include_data : bool) (machine_info commit_info : I) :
  let report := pytest_benchmark_generate_json utcnow version benchmarks include_data
                  machine_info commit_info in
  oj_benchmarks report =
    ((λ b, as_dict b include_data) <$> filter (λ b, has_error b = false) benchmarks)
  ∧ ∀ d, d ∈ oj_benchmarks report ↔
         ∃ b, b ∈ benchmarks ∧ has_error b = false ∧ d = as_dict b include_data.
Proof.
  simpl. rewrite generate_json_loop_spec. simpl. split; [done|].
  intros d. rewrite list_elem_of_fmap. split.
  - intros (b & -> & Hb). apply list_elem_of_filter in Hb as [Herr Hin]. eauto.
  - intros (b & Hin & Herr & ->). exists b. split; [done|].
    by apply list_elem_of_filter.
Qed.
End GenerateJsonFacts.

(** ** pytest_benchmark_compare_machine_info *)

(** C6: when the saved run records a [machine_info],
    [pytest_benchmark_compare_machine_info] returns normally; it has logged
    one more warning, coded BENCHMARK-C6, when the saved record differs
    from the current one, and none when they are equal; the session is
    otherwise what it was, its recorded regressions included. *)
Theorem compare_machine_info_warns_iff_different {V : Type} `{EqDecision V}
    (format_dict : V → string) (bs : BenchmarkSession) (machine_info saved : V)
    (compared_benchmark : gmap string V) :
  compared_benchmark !! "machine_info" = Some saved →
  ∃ bs',
    pytest_benchmark_compare_machine_info format_dict bs machine_info compared_benchmark
      = Return bs'
    ∧ (saved ≠ machine_info →
         ∃ w, w_code w = "BENCHMARK-C6"
              ∧ warnings (logger bs') = warnings (logger bs) ++ [w])
    ∧ (saved = machine_info → warnings (logger bs') = warnings (logger bs))
    ∧ errors (logger bs') = errors (logger bs)
    ∧ performance_regressions bs' = performance_regressions bs
    ∧ bs' = with_logger bs (logger bs').
Proof.
  intros Hsaved. unfold pytest_benchmark_compare_machine_info. rewrite Hsaved.
  case_bool_decide as Hne.
  - eexists. split; [reflexivity|]. simpl. repeat split; try done.
    intros _. eexists. split; [|reflexivity]. done.
  - subst saved.
    exists bs. repeat split; try done. by destruct bs.
Qed.

Lemma compare_machine_info_warns_iff_different_witness :
  let current : gmap string pyval := {[ "node" := PyStr "ci-2"; "system" := PyStr "Linux" ]} in
  let saved : gmap string pyval := {[ "node" := PyStr "ci-1"; "system" := PyStr "Linux" ]} in
  let bs := {| skip := false; only := false; disable := false; options := ∅;
               logger := {| warnings := []; errors := [] |};
               storage_location := ".benchmarks";
               performance_regressions := [] |} in
  ∃ bs',
    pytest_benchmark_compare_machine_info (λ _, "{...}") bs current
      {[ "machine_info" := saved ]} = Return bs'
    ∧ length (warnings (logger bs')) = 1%nat.
Proof.
  intros current saved bs.
  assert ((({[ "machine_info" := saved ]} : gmap string (gmap string pyval))
             !! "machine_info") = Some saved) as Hsaved by (vm_compute; reflexivity).
  destruct (compare_machine_info_warns_iff_different (λ _, "{...}") bs current saved
              {[ "machine_info" := saved ]} Hsaved)
    as (bs' & Hret & Hdiff & _).
  exists bs'. split; [exact Hret|].
  destruct Hdiff as (w & _ & ->).
  - intros Heq. assert (saved !! "node" = current !! "node") as Hn by (by rewrite Heq).
    vm_compute in Hn. discriminate.
  - reflexivity.
Defined.

(** ** The benchmark fixture *)

Lemma wrap_timer_lookup (options : gmap string pyval) k :
  wrap_timer options !! k =
  if decide (k = "timer") then PyNameWrapper <$> options !! k else options !! k.
Proof.
  unfold wrap_timer. destruct (options !! "timer") as [t|] eqn:Et.
  - destruct (decide (k = "timer")) as [->|Hk].
    + by rewrite lookup_insert_eq, Et.
    + by rewrite lookup_insert_ne.
  - destruct (decide (k = "timer")) as [->|Hk]; [by rewrite Et|done].
Qed.

Lemma dict_merge_lookup_Some (a b : gmap string pyval) k v :
  b !! k = Some v → dict_merge a b !! k = Some v.
Proof. intros Hb. unfold dict_merge. by apply lookup_union_Some_l. Qed.

Lemma dict_merge_lookup_None (a b : gmap string pyval) k :
  b !! k = None → dict_merge a b !! k = a !! k.
Proof. intros Hb. unfold dict_merge. by apply lookup_union_r. Qed.

Lemma call_BenchmarkFixture_ok node disable (kwargs : gmap string pyval) :
  (∀ k, k ∈ explicit_keywords → kwargs !! k = None) →
  call_BenchmarkFixture node disable kwargs =
  Return {| fx_node := item_name node; fx_disable := disable; fx_kwargs := kwargs |}.
Proof.
  intros Hfree. unfold call_BenchmarkFixture.
  rewrite bool_decide_false; [done|].
  intros Hex. apply Exists_exists in Hex as (k & Hin & Hk).
  apply elem_of_dict_keys in Hin as [v Hv]. rewrite (Hfree k Hk) in Hv. discriminate.
Qed.

(** C8: when benchmarks are not skipped, the [benchmark] fixture constructs
    the [BenchmarkFixture] with the merge of the session's options and the
    marker's keyword arguments, in which every key of the marker carries
    the marker's value and every other key keeps the session's value. The
    marker's dictionary is the very one the fixture has just updated in
    place: it differs from what the test declared at [timer] only, whose
    value is now wrapped in a [NameWrapper], the form the session keeps its
    own timer in. (No option or marker key may repeat one of the keywords
    the call passes by name.) *)
Theorem benchmark_fixture_marker_overrides_session (bs : BenchmarkSession)
    (request : Request) :
  skip bs = false →
  (∀ k, k ∈ explicit_keywords →
        options bs !! k = None ∧ marker_kwargs (req_node request) !! k = None) →
  ∃ fixture request',
    benchmark bs request = Return (fixture, request')
    ∧ fx_disable fixture = disable bs
    ∧ let declared := marker_kwargs (req_node request) in
      let kwargs := marker_kwargs (req_node request') in
      fx_kwargs fixture = dict_merge (options bs) kwargs
      ∧ (∀ k v, kwargs !! k = Some v → fx_kwargs fixture !! k = Some v)
      ∧ (∀ k, kwargs !! k = None → fx_kwargs fixture !! k = options bs !! k)
      ∧ (∀ k, declared !! k = None → fx_kwargs fixture !! k = options bs !! k)
      ∧ (∀ k v, declared !! k = Some v → k ≠ "timer" →
                kwargs !! k = Some v ∧ fx_kwargs fixture !! k = Some v)
      ∧ (∀ v, declared !! "timer" = Some v →
              kwargs !! "timer" = Some (PyNameWrapper v)
              ∧ fx_kwargs fixture !! "timer" = Some (PyNameWrapper v)).
Proof.
  intros Hskip Hfree. unfold benchmark. rewrite Hskip.
  set (opts := wrap_timer (marker_kwargs (req_node request))).
  set (node' := {| item_name := _; item_marker := _; funcargs := _ |}).
  assert (marker_kwargs node' = opts) as Hafter.
  { unfold marker_kwargs, get_marker, node', opts. simpl.
    unfold marker_kwargs, get_marker.
    destruct (item_marker (req_node request)); done. }
  assert (∀ k, k ≠ "timer" → opts !! k = marker_kwargs (req_node request) !! k) as Hsame.
  { intros k Hk. unfold opts. rewrite wrap_timer_lookup. by rewrite decide_False. }
  assert (opts !! "timer" = PyNameWrapper <$> marker_kwargs (req_node request) !! "timer")
    as Htimer.
  { unfold opts. by rewrite wrap_timer_lookup, decide_True. }
  rewrite call_BenchmarkFixture_ok.
  - eexists _, _. split; [reflexivity|]. simpl. rewrite Hafter.
    split; [done|]. split; [done|]. split; [|split; [|split; [|split]]].
    + intros k v. apply dict_merge_lookup_Some.
    + intros k. apply dict_merge_lookup_None.
    + intros k Hk. apply dict_merge_lookup_None.
      destruct (decide (k = "timer")) as [->|Hne].
      * by rewrite Htimer, Hk.
      * by rewrite Hsame.
    + intros k v Hk Hne. rewrite <- Hsame in Hk by done.
      split; [done|]. by apply dict_merge_lookup_Some.
    + intros v Hv. rewrite Hv in Htimer. simpl in Htimer.
      split; [done|]. by apply dict_merge_lookup_Some.
  - intros k Hk. destruct (Hfree k Hk) as [Ho Hm].
    rewrite dict_merge_lookup_None; [done|].
    unfold opts. rewrite wrap_timer_lookup.
    destruct (decide (k = "timer")); [by rewrite Hm|done].
Qed.

Lemma benchmark_fixture_marker_overrides_session_witness :
  let bs := {| skip := false; only := false; disable := false;
               options := {[ "min_rounds" := PyInt 5; "disable_gc" := PyBool false;
                             "timer" := PyNameWrapper (PyFunc "time.perf_counter") ]};
               logger := {| warnings := []; errors := [] |};
               storage_location := ".benchmarks";
               performance_regressions := [] |} in
  let marker := {| mark_args := [];
                   mark_kwargs := {[ "min_rounds" := PyInt 20;
                                     "timer" := PyFunc "time.time" ]} |} in
  let request := {| req_node := {| item_name := "test_read"; item_marker := Some marker;
                                   funcargs := None |};
                    req_finalizers := [] |} in
  ∃ fixture request',
    benchmark bs request = Return (fixture, request')
    ∧ fx_kwargs fixture !! "min_rounds" = Some (PyInt 20)
    ∧ fx_kwargs fixture !! "disable_gc" = Some (PyBool false)
    ∧ fx_kwargs fixture !! "timer" = Some (PyNameWrapper (PyFunc "time.time")).
Proof.
  intros bs marker request.
  destruct (benchmark_fixture_marker_overrides_session bs request) as
    (fixture & request' & Hret & _ & _ & _ & _ & Hsession & Hmarker & Htimer).
  - reflexivity.
  - intros k Hk. unfold explicit_keywords in Hk.
    repeat (apply elem_of_cons in Hk as [->|Hk]; [split; vm_compute; reflexivity|]).
    by apply elem_of_nil in Hk.
  - exists fixture, request'. split; [exact Hret|].
    split; [|split].
    + apply (Hmarker "min_rounds" (PyInt 20)); [vm_compute; reflexivity|done].
    + rewrite (Hsession "disable_gc"); vm_compute; reflexivity.
    + apply (Htimer (PyFunc "time.time")). vm_compute. reflexivity.
Defined.

(** ** pytest_terminal_summary *)

(** plugin.py never binds [PerformanceRegression]. *)
Lemma PerformanceRegression_unbound :
  assoc "PerformanceRegression" plugin_globals = None.
Proof. vm_compute. reflexivity. Qed.

(** C5: as plugin.py stands, whatever [display] raises, evaluating the
    clause [except PerformanceRegression] raises [NameError]: the exception
    of [display] is not re-raised and nothing is logged. *)
Theorem terminal_summary_raises_NameError (format_exc : exn → string) (e : exn)
    (log : Logger) :
  pytest_terminal_summary plugin_globals format_exc (Raise e) log
  = (Raise (Exn NameError "name 'PerformanceRegression' is not defined"), log).
Proof.
  unfold pytest_terminal_summary, load_class.
  rewrite PerformanceRegression_unbound. reflexivity.
Qed.

(** The namespace plugin.py would have with the class imported from
    session.py. *)
Lemma load_class_with_import :
  let globals := ("PerformanceRegression", ExceptionClass PerformanceRegression)
                 :: plugin_globals in
  load_class globals "PerformanceRegression" = Return (ClsOf PerformanceRegression)
  ∧ load_class globals "Exception" = Return ClsException.
Proof. split; vm_compute; reflexivity. Qed.

(** With that import the handler does what it is written for: a
    [PerformanceRegression] goes through unchanged and unlogged, any other
    [Exception] is logged and re-raised. *)
Lemma terminal_summary_with_import (format_exc : exn → string) (e : exn) (log : Logger) :
  let globals := ("PerformanceRegression", ExceptionClass PerformanceRegression)
                 :: plugin_globals in
  (exn_cls e = PerformanceRegression →
     pytest_terminal_summary globals format_exc (Raise e) log = (Raise e, log))
  ∧ (exn_cls e ≠ PerformanceRegression → is_Exception e = true →
     pytest_terminal_summary globals format_exc (Raise e) log
     = (Raise e, logger_error log (newline +:+ format_exc e))).
Proof.
  intros globals. destruct load_class_with_import as [Hpr Hex].
  fold globals in Hpr, Hex.
  unfold pytest_terminal_summary. rewrite Hpr, Hex. unfold isinstance_exn. split.
  - intros Hc. by rewrite bool_decide_true.
  - intros Hc He. rewrite bool_decide_false by done. by rewrite He.
Qed.

(** ** pytest_benchmark_group_stats *)

Lemma bind_Return {A B} (a : A) (k : A → result B) : (Return a ≫= k) = k a.
Proof. reflexivity. Qed.

Lemma bind_Raise {A B} (e : exn) (k : A → result B) : (Raise e ≫= k) = Raise e.
Proof. reflexivity. Qed.

(** *** Comparisons *)

Lemma ltb_asym (s t : string) : String.ltb s t = true → String.ltb t s = false.
Proof.
  unfold String.ltb. rewrite (String.compare_antisym s t).
  destruct (String.compare t s); simpl; congruence.
Qed.

Lemma ltb_false_iff_leb (s t : string) : String.ltb t s = false ↔ String.leb s t = true.
Proof.
  unfold String.ltb, String.leb. rewrite (String.compare_antisym s t).
  destruct (String.compare t s); simpl; split; congruence.
Qed.

Lemma leb_trans (s t u : string) :
  String.leb s t = true → String.leb t u = true → String.leb s u = true.
Proof.
  unfold String.leb. revert t u.
  induction s as [|a s IH]; intros [|b t] [|c u]; simpl; try done.
  unfold Ascii.compare.
  destruct (N.compare_spec (N_of_ascii a) (N_of_ascii b)) as [Hab|Hab|Hab]; [| |done].
  - rewrite Hab. destruct (N.compare (N_of_ascii b) (N_of_ascii c)); [apply IH|done|done].
  - destruct (N.compare_spec (N_of_ascii b) (N_of_ascii c)) as [Hbc|Hbc|Hbc]; [| |done].
    + intros _ _. rewrite <- Hbc. by rewrite (proj2 (N.compare_lt_iff _ _) Hab).
    + intros _ _.
      by rewrite (proj2 (N.compare_lt_iff _ _) (N.lt_trans _ _ _ Hab Hbc)).
Qed.

Lemma not_after_trans (a b c : pyval) :
  not_after a b → not_after b c → not_after a c.
Proof.
  unfold not_after.
  destruct a as [| [|] | x | s | f | w], b as [| [|] | y | t | g | w'],
    c as [| [|] | z | u | h | w'']; simpl; try done;
    intros H1 H2; simplify_eq; f_equal; try lia.
  apply ltb_false_iff_leb. apply ltb_false_iff_leb in H1, H2.
  by apply (leb_trans _ t).
Qed.

Lemma py_lt_str_total a b :
  is_str a = true → is_str b = true → ∃ r, py_lt a b = Return r.
Proof. destruct a, b; try done. simpl. eauto. Qed.

Lemma py_lt_str_asym a b :
  is_str a = true → is_str b = true →
  py_lt a b = Return true → py_lt b a = Return false.
Proof.
  destruct a, b; try done. simpl. intros _ _ [= H]. by rewrite ltb_asym.
Qed.

Lemma py_lt_number_total a b :
  is_number a = true → is_number b = true → ∃ r, py_lt a b = Return r.
Proof.
  unfold is_number. destruct a, b; simpl; try done; eauto.
Qed.

Lemma py_lt_number_asym a b :
  is_number a = true → is_number b = true →
  py_lt a b = Return true → py_lt b a = Return false.
Proof.
  unfold is_number. destruct a, b; simpl; try done;
    intros _ _ [= H]; f_equal; lia.
Qed.

Lemma key_eq_refl k : key_eq k k = true.
Proof.
  unfold key_eq. destruct (as_number k); [apply Z.eqb_refl|by apply bool_decide_eq_true].
Qed.

Lemma key_eq_sym a b : key_eq a b = key_eq b a.
Proof.
  unfold key_eq. destruct (as_number a), (as_number b); try done.
  - apply Z.eqb_sym.
  - apply bool_decide_ext. split; congruence.
Qed.

(** *** The stable sort *)

Section SortedFacts.
Context {A : Type}.
Variable key : A → pyval.
(** A class of keys [<] is defined and asymmetric on. *)
Variable cls : pyval → bool.
Hypothesis cls_total : ∀ a b, cls a = true → cls b = true → ∃ r, py_lt a b = Return r.
Hypothesis cls_asym : ∀ a b, cls a = true → cls b = true →
  py_lt a b = Return true → py_lt b a = Return false.

Let ordered (x y : A) : Prop := not_after (key x) (key y).

Lemma insert_by_spec x l :
  cls (key x) = true → Forall (λ y, cls (key y) = true) l → Sorted ordered l →
  ∃ l', insert_by key x l = Return l'
        ∧ l' ≡ₚ x :: l
        ∧ Sorted ordered l'
        ∧ ∀ z, ordered z x → HdRel ordered z l → HdRel ordered z l'.
Proof.
  intros Hx. induction l as [|y l IH]; intros Hall Hsorted; simpl.
  - exists [x]. repeat split; auto.
  - apply Forall_cons in Hall as [Hy Hall].
    apply Sorted_inv in Hsorted as [Hsorted Hhd].
    destruct (cls_total (key y) (key x) Hy Hx) as [b Hb].
    rewrite Hb, bind_Return. destruct b.
    + destruct (IH Hall Hsorted) as (r & -> & Hperm & Hs & Hrel).
      rewrite bind_Return. exists (y :: r). repeat split.
      * rewrite Hperm. apply perm_swap.
      * constructor; [done|]. apply Hrel; [|done].
        unfold ordered, not_after. by apply cls_asym.
      * intros z _ Hz. constructor. by apply HdRel_inv in Hz.
    + exists (x :: y :: l). repeat split; auto.
Qed.

Lemma sorted_by_spec l :
  Forall (λ y, cls (key y) = true) l →
  ∃ l', sorted_by key l = Return l' ∧ l' ≡ₚ l ∧ Sorted ordered l'.
Proof.
  induction l as [|x l IH]; intros Hall; simpl.
  - exists []. repeat split; auto.
  - apply Forall_cons in Hall as [Hx Hall].
    destruct (IH Hall) as (s & -> & Hperm & Hs).
    rewrite bind_Return.
    destruct (insert_by_spec x s Hx) as (l' & -> & Hperm' & Hs' & _); [|done|].
    + by rewrite Hperm.
    + exists l'. repeat split; [|done]. by rewrite Hperm', Hperm.
Qed.
End SortedFacts.

(** *** Filing the benchmarks under their keys *)

Lemma keys_distinct_snoc ks k :
  keys_distinct ks → Forall (λ k', key_eq k' k = false) ks → keys_distinct (ks ++ [k]).
Proof.
  induction ks as [|k0 ks IH]; csimpl; intros Hd Hall.
  - split; [constructor|done].
  - destruct Hd as [Hk0 Hd]. apply Forall_cons in Hall as [Hk Hall]. split.
    + apply Forall_app. split; [done|]. by constructor.
    + by apply IH.
Qed.

Lemma keys_distinct_perm ks ks' : ks ≡ₚ ks' → keys_distinct ks → keys_distinct ks'.
Proof.
  induction 1 as [|k ks ks' Hperm IH|k1 k2 ks|ks1 ks2 ks3 _ IH1 _ IH2]; csimpl.
  - done.
  - intros [Hk Hd]. split; [by rewrite <- Hperm|by apply IH].
  - intros [Hk2 [Hk1 Hd]]. apply Forall_cons in Hk2 as [H21 Hk2].
    repeat split; try done. constructor; [|done]. by rewrite key_eq_sym.
  - intros Hd. by apply IH2, IH1.
Qed.

Lemma groups_append_keys groups key bench :
  (groups_append groups key bench).*1 = groups.*1
  ∨ ((groups_append groups key bench).*1 = groups.*1 ++ [key]
     ∧ Forall (λ k, key_eq k key = false) groups.*1).
Proof.
  induction groups as [|[k g] groups IH]; csimpl.
  - right. split; [done|constructor].
  - destruct (key_eq k key) eqn:E; csimpl.
    + by left.
    + destruct IH as [->| [-> Hall]]; [by left|right].
      split; [done|]. by constructor.
Qed.

Lemma groups_append_concat groups key bench :
  concat (groups_append groups key bench).*2 ≡ₚ concat groups.*2 ++ [bench].
Proof.
  induction groups as [|[k g] groups IH]; csimpl.
  - done.
  - destruct (key_eq k key); csimpl.
    + rewrite <- !app_assoc. apply Permutation_app_head, Permutation_app_comm.
    + by rewrite IH, app_assoc.
Qed.

Lemma groups_append_filed group_by groups key bench :
  group_key group_by bench = Return key →
  Forall (filed_under group_by) groups →
  Forall (filed_under group_by) (groups_append groups key bench).
Proof.
  intros Hkey. induction groups as [|[k g] groups IH]; csimpl; intros Hall.
  - constructor; [|done]. split; [done|]. csimpl.
    constructor; [|done]. exists key. split; [done|apply key_eq_refl].
  - apply Forall_cons in Hall as [[Hne Hg] Hall]. csimpl in *.
    destruct (key_eq k key) eqn:E.
    + constructor; [|done]. split; csimpl.
      * by destruct g.
      * apply Forall_app. split; [done|]. constructor; [|done]. eauto.
    + constructor; [done|]. by apply IH.
Qed.

Lemma group_loop_spec group_by benchmarks keys groups :
  Forall2 (λ b k, group_key group_by b = Return k) benchmarks keys →
  keys_distinct groups.*1 →
  Forall (filed_under group_by) groups →
  ∃ groups', group_loop group_by benchmarks groups = Return groups'
    ∧ concat groups'.*2 ≡ₚ concat groups.*2 ++ benchmarks
    ∧ keys_distinct groups'.*1
    ∧ Forall (filed_under group_by) groups'
    ∧ Forall (λ k, k ∈ groups.*1 ∨ k ∈ keys) groups'.*1.
Proof.
  intros Hkeys. revert groups.
  induction Hkeys as [|b k benchmarks keys Hk _ IH]; intros groups Hd Hf; csimpl.
  - exists groups. rewrite app_nil_r. repeat split; try done.
    apply Forall_forall. auto.
  - rewrite Hk, bind_Return.
    destruct (IH (groups_append groups k b)) as (groups' & -> & Hperm & Hd' & Hf' & Hin).
    + destruct (groups_append_keys groups k b) as [->| [-> Hall]]; [done|].
      by apply keys_distinct_snoc.
    + by apply groups_append_filed.
    + exists groups'. repeat split; try done.
      * rewrite Hperm, groups_append_concat, <- app_assoc. done.
      * eapply Forall_impl; [exact Hin|]. csimpl. intros k' [Hk'|Hk'].
        -- destruct (groups_append_keys groups k b) as [Heq| [Heq _]];
             rewrite Heq in Hk'; [by left|].
           apply elem_of_app in Hk' as [?|Hk']; [by left|right].
           apply list_elem_of_singleton in Hk'. subst. by left.
        -- right. by right.
Qed.

(** *** Sorting inside the groups *)

Lemma itemgetter_sort_field group_by b :
  itemgetter (if contains "full" group_by then "fullname" else "name") b
  = PyStr (sort_field group_by b).
Proof. unfold itemgetter, sort_field. by destruct (contains "full" group_by). Qed.

Lemma Sorted_weaken {A} (R R' : A → A → Prop) l :
  (∀ x y, R x y → R' x y) → Sorted R l → Sorted R' l.
Proof.
  intros Himpl. induction 1 as [|x l _ IH Hhd]; constructor; [done|].
  destruct Hhd; constructor; auto.
Qed.

Lemma sort_groups_spec group_by groups :
  ∃ groups',
    sort_groups (if contains "full" group_by then "fullname" else "name") groups
      = Return groups'
    ∧ groups'.*1 = groups.*1
    ∧ concat groups'.*2 ≡ₚ concat groups.*2
    ∧ (Forall (filed_under group_by) groups → Forall (filed_under group_by) groups')
    ∧ Forall (λ p, Sorted (λ a b, String.leb (sort_field group_by a)
                                     (sort_field group_by b) = true) p.2) groups'.
Proof.
  induction groups as [|[k g] groups IH]; csimpl.
  - exists []. repeat split; auto.
  - destruct (sorted_by_spec
                (itemgetter (if contains "full" group_by then "fullname" else "name"))
                is_str py_lt_str_total py_lt_str_asym g) as (g' & -> & Hperm & Hs).
    { apply Forall_forall. intros b _. by rewrite itemgetter_sort_field. }
    rewrite bind_Return.
    destruct IH as (groups' & -> & Hk & Hc & Hf & Hsorted).
    rewrite bind_Return. exists ((k, g') :: groups'). csimpl. repeat split.
    + by rewrite Hk.
    + by rewrite Hperm, Hc.
    + intros Hall. apply Forall_cons in Hall as [[Hne Hg] Hall].
      constructor; [|by apply Hf]. split; csimpl in *.
      * intros ->. apply Permutation_nil_l in Hperm. by apply Hne.
      * by rewrite Hperm.
    + constructor; [|done]. csimpl.
      eapply Sorted_weaken; [|exact Hs]. csimpl. intros a b.
      unfold not_after. rewrite !itemgetter_sort_field. csimpl.
      intros [= H]. by apply ltb_false_iff_leb.
Qed.

(** *** The keys of the supported groupings *)

Lemma concat_perm {A} (l l' : list (list A)) : l ≡ₚ l' → concat l ≡ₚ concat l'.
Proof.
  induction 1 as [|x l l' _ IH|x y l|l1 l2 l3 _ IH1 _ IH2]; csimpl.
  - done.
  - by rewrite IH.
  - rewrite !app_assoc. apply Permutation_app_tail, Permutation_app_comm.
  - by rewrite IH1.
Qed.

Lemma group_key_label group_by bench :
  group_by ∈ ["group"; "name"; "func"; "fullfunc"; "fullname"; "param"] →
  ∃ k, group_key group_by bench = Return k.
Proof.
  intros Hin.
  repeat (apply elem_of_cons in Hin as [->|Hin]; [eexists; reflexivity|]).
  by apply elem_of_nil in Hin.
Qed.

Lemma group_key_param param_name bench :
  group_key ("param:" +:+ param_name) bench =
  match params bench with
  | None => Raise (Exn TypeError "'NoneType' object is not subscriptable")
  | Some ps =>
      match ps !! param_name with
      | Some param_value => Return param_value
      | None => Raise (Exn KeyError (repr_str param_name))
      end
  end.
Proof. reflexivity. Qed.

Lemma group_key_unsupported group_by bench :
  ¬ supported group_by → raises (group_key group_by bench) NotImplementedError.
Proof.
  intros Hns. unfold group_key.
  repeat (case_bool_decide as Heq;
          [exfalso; apply Hns; left; subst group_by; set_solver|]; clear Heq).
  destruct (startswith group_by "param:") eqn:Hp.
  - exfalso. apply Hns. by right.
  - unfold raises. eauto.
Qed.

(** C9, as the code has it: whenever every benchmark has a grouping key
    (always so for the six labels; for [param:NAME] when every benchmark's
    [params] holds NAME) and the keys can be compared with one another, the
    hook returns (key, group) pairs that partition the input -- the groups
    together are a rearrangement of the input, no two pairs have the same
    key, no group is empty and each benchmark sits under its own key --
    with the pairs in ascending order of [key or ""] and every group in
    ascending order of [fullname] when [full] occurs in [group_by], of
    [name] otherwise. An unsupported [group_by] raises
    [NotImplementedError] as soon as there is one benchmark to file. *)
Theorem group_stats_partitions_and_sorts (benchmarks : list BenchStats)
    (group_by : string) :
  (∀ keys,
     Forall2 (λ b k, group_key group_by b = Return k) benchmarks keys →
     comparable keys →
     ∃ groups,
       pytest_benchmark_group_stats benchmarks group_by = Return groups
       ∧ concat groups.*2 ≡ₚ benchmarks
       ∧ keys_distinct groups.*1
       ∧ Forall (filed_under group_by) groups
       ∧ StronglySorted (λ p q, not_after (sort_key p.1) (sort_key q.1)) groups
       ∧ Forall (λ p, StronglySorted (λ a b, String.leb (sort_field group_by a)
                                               (sort_field group_by b) = true) p.2)
           groups)
  ∧ (group_by ∈ ["group"; "name"; "func"; "fullfunc"; "fullname"; "param"] →
     ∃ keys, Forall2 (λ b k, group_key group_by b = Return k) benchmarks keys)
  ∧ (∀ param_name,
       group_by = "param:" +:+ param_name →
       Forall (λ b, ∃ ps v, params b = Some ps ∧ ps !! param_name = Some v) benchmarks →
       ∃ keys, Forall2 (λ b k, group_key group_by b = Return k) benchmarks keys)
  ∧ (¬ supported group_by → benchmarks ≠ [] →
     raises (pytest_benchmark_group_stats benchmarks group_by) NotImplementedError).
Proof.
  split; [|split; [|split]].
  - intros keys Hkeys Hcomp. unfold pytest_benchmark_group_stats.
    destruct (group_loop_spec group_by benchmarks keys [] Hkeys)
      as (g1 & -> & Hperm1 & Hd1 & Hf1 & Hin1); [done|done|].
    rewrite bind_Return.
    destruct (sort_groups_spec group_by g1) as (g2 & -> & Hk2 & Hc2 & Hf2 & Hs2).
    rewrite bind_Return.
    assert (∀ cls : pyval → bool,
              Forall (λ k, cls (sort_key k) = true) keys →
              Forall (λ p : pyval * list BenchStats,
                        cls (py_or p.1 (PyStr "")) = true) g2) as Hcls.
    { intros cls Hall. rewrite Forall_forall in Hall.
      apply Forall_forall. intros [k g] Hp.
      assert (k ∈ g2.*1) as Hk by (apply list_elem_of_fmap; by exists (k, g)).
      rewrite Hk2 in Hk. rewrite Forall_forall in Hin1.
      destruct (Hin1 k Hk) as [Hnil|Hkeysin]; [by apply elem_of_nil in Hnil|].
      by apply Hall. }
    assert (∃ g3, sorted_by (λ pair : pyval * list BenchStats,
                               py_or pair.1 (PyStr "")) g2 = Return g3
                  ∧ g3 ≡ₚ g2
                  ∧ Sorted (λ p q, not_after (sort_key p.1) (sort_key q.1)) g3)
      as (g3 & -> & Hperm3 & Hs3).
    { destruct Hcomp as [Hstr|Hnum].
      - apply (sorted_by_spec _ is_str py_lt_str_total py_lt_str_asym), Hcls, Hstr.
      - apply (sorted_by_spec _ is_number py_lt_number_total py_lt_number_asym),
          Hcls, Hnum. }
    exists g3. split; [done|]. repeat split.
    + rewrite (concat_perm _ _ (fmap_Permutation snd _ _ Hperm3)), Hc2, Hperm1. done.
    + eapply keys_distinct_perm; [symmetry; apply (fmap_Permutation fst), Hperm3|].
      by rewrite Hk2.
    + rewrite Hperm3. by apply Hf2.
    + apply Sorted_StronglySorted; [|done].
      intros p q r. apply not_after_trans.
    + rewrite Hperm3. eapply Forall_impl; [exact Hs2|]. intros p.
      apply Sorted_StronglySorted. intros a b c. apply leb_trans.
  - intros Hin. induction benchmarks as [|b benchmarks [keys IH]].
    + exists []. constructor.
    + destruct (group_key_label group_by b Hin) as [k Hk].
      exists (k :: keys). by constructor.
  - intros param_name -> Hall.
    induction Hall as [|b benchmarks (ps & v & Hps & Hv) _ [keys IH]].
    + exists []. constructor.
    + exists (v :: keys). constructor; [|done].
      by rewrite group_key_param, Hps, Hv.
  - intros Hns Hne. destruct benchmarks as [|b benchmarks]; [done|].
    destruct (group_key_unsupported group_by b Hns) as [msg Hmsg].
    unfold pytest_benchmark_group_stats. csimpl. rewrite Hmsg.
    exists msg. reflexivity.
Qed.

Lemma group_stats_partitions_and_sorts_witness :
  let bench g n := {| group := g; name := n; fullname := "tests/test_io.py::" +:+ n;
                      param := PyNone; params := None |} in
  let benchmarks := [bench (PyStr "write") "test_flush"; bench PyNone "test_misc";
                     bench (PyStr "read") "test_scan"; bench (PyStr "write") "test_append"] in
  ∃ groups,
    pytest_benchmark_group_stats benchmarks "group" = Return groups
    ∧ concat groups.*2 ≡ₚ benchmarks
    ∧ groups.*1 = [PyNone; PyStr "read"; PyStr "write"].
Proof.
  intros bench benchmarks.
  destruct (proj1 (group_stats_partitions_and_sorts benchmarks "group")
              [PyStr "write"; PyNone; PyStr "read"; PyStr "write"])
    as (groups & Hret & Hperm & _).
  - repeat constructor.
  - left. repeat constructor.
  - exists groups. split; [exact Hret|]. split; [exact Hperm|].
    vm_compute in Hret. injection Hret as <-. reflexivity.
Defined.

(** C9 as stated fails in three places: an unsupported [group_by] goes
    unnoticed when there is no benchmark to file; the supported
    [param:NAME] raises for a benchmark that is not parametrized instead of
    returning a partition; and keys that [or ""] leaves of different types
    (here the parameter values 0 and 1, compared as [""] and [1]) make the
    final sort raise. *)
Lemma group_stats_counterexample :
  let plain := {| group := PyNone; name := "test_scan";
                  fullname := "tests/test_io.py::test_scan";
                  param := PyNone; params := None |} in
  let sized n := {| group := PyNone; name := "test_fill";
                    fullname := "tests/test_io.py::test_fill";
                    param := PyNone; params := Some {[ "n" := PyInt n ]} |} in
  (¬ supported "speed"
   ∧ pytest_benchmark_group_stats [] "speed" = Return [])
  ∧ (supported "param:size"
     ∧ raises (pytest_benchmark_group_stats [plain] "param:size") TypeError)
  ∧ (supported "param:n"
     ∧ raises (pytest_benchmark_group_stats [sized 0%Z; sized 1%Z] "param:n") TypeError).
Proof.
  intros plain sized. split; [split|split; split].
  - intros [Hin|Hpre]; [|by vm_compute in Hpre].
    repeat (apply elem_of_cons in Hin as [Heq|Hin]; [by vm_compute in Heq|]).
    by apply elem_of_nil in Hin.
  - reflexivity.
  - right. reflexivity.
  - eexists. reflexivity.
  - right. reflexivity.
  - eexists. vm_compute. reflexivity.
Qed.

End PluginFacts.


(** * Properties of the measurement core *)

Module CoreFacts.

Lemma Qlt_bool_iff (a b : Q) : Qlt_bool a b = true ↔ (a < b)%Q.
Proof.
  unfold Qlt_bool. rewrite negb_true_iff. split.
  - intros Hle. apply Qnot_le_lt. intros H. apply Qle_bool_iff in H. congruence.
  - intros Hlt. destruct (Qle_bool b a) eqn:E; [|done].
    apply Qle_bool_iff in E. exfalso. by apply (Qlt_not_le a b).
Qed.

Lemma Qlt_bool_false (a b : Q) : Qlt_bool a b = false ↔ (b <= a)%Q.
Proof.
  unfold Qlt_bool. rewrite negb_false_iff. apply Qle_bool_iff.
Qed.

(** ** Baseline comparator *)

Section ComparatorFacts.
Import BaselineComparator.
Local Open Scope Q_scope.

Lemma judge_Fail_iff (t : threshold) (b c : Q) :
  judge t b c = Fail ↔
  match t with
  | Percentage percentage => b * (1 + percentage / 100) < c
  | Absolute seconds => b + seconds < c
  end.
Proof.
  destruct t as [p|t]; simpl.
  - destruct (Qlt_bool _ c) eqn:E.
    + apply Qlt_bool_iff in E. done.
    + apply Qlt_bool_false in E. split; [done|].
      intros H. exfalso. by apply (Qlt_not_le _ _ H).
  - destruct (Qlt_bool _ c) eqn:E.
    + apply Qlt_bool_iff in E. done.
    + apply Qlt_bool_false in E. split; [done|].
      intros H. exfalso. by apply (Qlt_not_le _ _ H).
Qed.

(** C3: an expression [metric:N%] fails exactly when the current value of
    the metric exceeds the baseline's times [1 + N/100], an expression
    [metric:N] exactly when it exceeds the baseline's plus [N]. With a
    baseline mean of 1.0, [mean:10%] fails a current mean of 1.2 and passes
    a current mean of 1.05. *)
Theorem threshold_verdicts :
  (∀ (m : metric) (percentage : Q) (baseline current : metric → Q),
     evaluate (m, Percentage percentage) baseline current = Fail
     ↔ baseline m * (1 + percentage / 100) < current m)
  ∧ (∀ (m : metric) (seconds : Q) (baseline current : metric → Q),
     evaluate (m, Absolute seconds) baseline current = Fail
     ↔ baseline m + seconds < current m)
  ∧ (∀ (e : metric * threshold) (baseline current : metric → Q),
     evaluate e baseline current = Pass ↔ evaluate e baseline current ≠ Fail)
  ∧ parse_compare_fail "mean:10%" = Some (m_mean, Percentage 10)
  ∧ evaluate (m_mean, Percentage 10) (with_mean 1) (with_mean (12 # 10)) = Fail
  ∧ evaluate (m_mean, Percentage 10) (with_mean 1) (with_mean (105 # 100)) = Pass.
Proof.
  split; [|split; [|split; [|split; [|split]]]].
  - intros m p b c. apply (judge_Fail_iff (Percentage p)).
  - intros m t b c. apply (judge_Fail_iff (Absolute t)).
  - intros e b c. destruct (evaluate e b c); split; congruence.
  - reflexivity.
  - reflexivity.
  - reflexivity.
Qed.

End ComparatorFacts.

(** ** Round runner *)

Section RunnerFacts.
Import RoundRunner.
Variable cfg : Configuration.
Variable candidate : nat → option Q.
Variable stop_requested : nat → bool.

Local Abbreviation continue := (continue cfg stop_requested).
Local Abbreviation step := (step cfg candidate stop_requested).
Local Abbreviation measure := (measure cfg candidate stop_requested).

(** The run that has executed the rounds [ds] without an error. *)
Local Abbreviation run_of loops ds :=
  {| rounds := ds; loops_per_round := loops; has_error := false |}.

Lemma measure_not_measuring fuel ph run :
  ph ≠ Measuring → measure fuel (ph, run) = (ph, run).
Proof.
  intros Hph. induction fuel as [|fuel IH]; simpl; [done|].
  destruct ph; try done; apply IH.
Qed.

Lemma continue_false_iff run :
  continue run = false ↔
  (min_rounds cfg ≤ executed_rounds run)%nat
  ∧ ((max_time cfg <= cumulative_elapsed run)%Q
     ∨ stop_requested (executed_rounds run) = true).
Proof.
  unfold RoundRunner.continue.
  rewrite orb_false_iff, andb_false_iff, Nat.ltb_ge, Qlt_bool_false, negb_false_iff.
  done.
Qed.

(** A run leaves [Measuring] for [Sealed] only when the stopping rule says
    not to continue. *)
Lemma measure_sealed_stopped fuel run run' :
  measure fuel (Measuring, run) = (Sealed, run') → continue run' = false.
Proof.
  revert run. induction fuel as [|fuel IH]; intros run; simpl; [done|].
  destruct (candidate (executed_rounds run)) as [d|].
  - destruct (continue (append_round run d)) eqn:E.
    + apply IH.
    + rewrite measure_not_measuring by done. by intros [= <-].
  - rewrite measure_not_measuring by done. done.
Qed.

(** From a run that has executed [past], with the rounds [rest] still to
    come and both conditions met once they are all in, the loop seals no
    later than after the last of them. *)
Lemma measure_seals_by loops (past rest : list Q) fuel :
  rest ≠ [] →
  (∀ i d, (past ++ rest) !! i = Some d → candidate i = Some d) →
  continue (run_of loops (past ++ rest)) = false →
  (length rest ≤ fuel)%nat →
  ∃ sealed,
    measure fuel (Measuring, run_of loops past) = (Sealed, run_of loops sealed)
    ∧ sealed `prefix_of` past ++ rest
    ∧ (length past < length sealed)%nat.
Proof.
  revert past fuel. induction rest as [|d rest IH]; intros past fuel Hne Hcand Hstop Hfuel;
    [done|].
  destruct fuel as [|fuel]; [simpl in Hfuel; lia|]. simpl in Hfuel.
  simpl. unfold executed_rounds at 1. simpl.
  rewrite (Hcand (length past) d) by (by rewrite lookup_app_r, Nat.sub_diag).
  unfold append_round. simpl.
  destruct (continue (run_of loops (past ++ [d]))) eqn:E.
  - destruct rest as [|d' rest].
    { rewrite E in Hstop. done. }
    destruct (IH (past ++ [d]) fuel) as (sealed & Hm & Hpre & Hlen).
    + done.
    + by rewrite <- app_assoc.
    + by rewrite <- app_assoc.
    + simpl in *. lia.
    + exists sealed. split; [done|]. split.
      * by rewrite <- app_assoc in Hpre.
      * rewrite length_app in Hlen. simpl in Hlen. lia.
  - rewrite measure_not_measuring by done.
    exists (past ++ [d]). split; [done|]. split.
    + exists rest. by rewrite <- app_assoc.
    + rewrite length_app. simpl. lia.
Qed.

(** C1: a sealed run has executed at least [min_rounds] rounds, whatever
    the rounds took, and by then [max_time] was reached (or a stop was
    requested from outside); and once [min_rounds] rounds are done and the
    cumulative time has reached [max_time], the run is sealed: with the
    first [n] rounds succeeding and both conditions true after them, the
    loop seals after at most those [n] rounds and executes no further
    one. *)
Theorem round_runner_min_rounds_before_max_time (loops : positive) :
  (∀ fuel run,
     measure fuel (start loops) = (Sealed, run) →
     (min_rounds cfg ≤ executed_rounds run)%nat
     ∧ ((max_time cfg <= cumulative_elapsed run)%Q
        ∨ stop_requested (executed_rounds run) = true))
  ∧ (∀ (ds : list Q) fuel,
       ds ≠ [] →
       (∀ i d, ds !! i = Some d → candidate i = Some d) →
       (min_rounds cfg ≤ length ds)%nat →
       (max_time cfg <= total ds)%Q →
       (length ds ≤ fuel)%nat →
       ∃ run,
         measure fuel (start loops) = (Sealed, run)
         ∧ rounds run `prefix_of` ds
         ∧ has_error run = false).
Proof.
  split.
  - intros fuel run Hm. apply continue_false_iff.
    by apply (measure_sealed_stopped fuel _ _ Hm).
  - intros ds fuel Hne Hcand Hmin Hmax Hfuel.
    destruct (measure_seals_by loops [] ds fuel) as (sealed & Hm & Hpre & _); try done.
    + apply continue_false_iff. split; [done|]. by left.
    + exists (run_of loops sealed). done.
Qed.

End RunnerFacts.

(** With the default budget and rounds of three seconds each, [max_time] is
    exceeded after the first round and the run is sealed after exactly
    [min_rounds = 5] rounds. *)
Lemma round_runner_min_rounds_before_max_time_witness :
  let measure := RoundRunner.measure RoundRunner.default_configuration
                   (λ _, Some 3%Q) (λ _, false) in
  (∃ run, measure 8%nat (RoundRunner.start 1) = (RoundRunner.Sealed, run)
          ∧ RoundRunner.rounds run `prefix_of` [3; 3; 3; 3; 3; 3]%Q
          ∧ RoundRunner.has_error run = false)
  ∧ RoundRunner.executed_rounds (measure 8%nat (RoundRunner.start 1)).2 = 5%nat.
Proof.
  intros measure. split; [|reflexivity].
  apply (proj2 (round_runner_min_rounds_before_max_time
                  RoundRunner.default_configuration (λ _, Some 3%Q) (λ _, false) 1)
           [3; 3; 3; 3; 3; 3]%Q 8%nat).
  - done.
  - intros i d Hd. repeat (destruct i as [|i]; [by injection Hd as <-|]). done.
  - simpl. lia.
  - by vm_compute.
  - simpl. lia.
Defined.


(** ** Stats engine *)

Section StatsFacts.
Import StatsEngine.
Local Open Scope Q_scope.

Lemma insert_In x l y : In y (insert x l) ↔ y = x ∨ In y l.
Proof.
  induction l as [|z l IH]; simpl.
  - intuition.
  - destruct (Qle_bool x z); simpl; [intuition|]. rewrite IH. intuition.
Qed.

Lemma sort_In l y : In y (sort l) ↔ In y l.
Proof.
  induction l as [|x l IH]; simpl; [done|].
  rewrite insert_In, IH. intuition.
Qed.

Lemma insert_length x l : length (insert x l) = S (length l).
Proof.
  induction l as [|z l IH]; simpl; [done|].
  destruct (Qle_bool x z); simpl; [done|]. by rewrite IH.
Qed.

Lemma sort_length l : length (sort l) = length l.
Proof.
  induction l as [|x l IH]; simpl; [done|]. by rewrite insert_length, IH.
Qed.

Lemma minimum_le x l : minimum x l <= x ∧ ∀ y, In y l → minimum x l <= y.
Proof.
  induction l as [|z l [IHx IHl]]; simpl.
  - split; [apply Qle_refl|done].
  - split.
    + eapply Qle_trans; [apply Q.le_min_r|done].
    + intros y [<-|Hy]; [apply Q.le_min_l|].
      eapply Qle_trans; [apply Q.le_min_r|by apply IHl].
Qed.

Lemma maximum_ge x l : x <= maximum x l ∧ ∀ y, In y l → y <= maximum x l.
Proof.
  induction l as [|z l [IHx IHl]]; simpl.
  - split; [apply Qle_refl|done].
  - split.
    + eapply Qle_trans; [done|apply Q.le_max_r].
    + intros y [<-|Hy]; [apply Q.le_max_l|].
      eapply Qle_trans; [by apply IHl|apply Q.le_max_r].
Qed.

(** The median of a non-empty sequence lies between any bounds of its
    elements. *)
Lemma median_of_bounds (sorted : list Q) (lo hi : Q) :
  sorted ≠ [] →
  (∀ y, In y sorted → lo <= y ∧ y <= hi) →
  lo <= median_of sorted ∧ median_of sorted <= hi.
Proof.
  intros Hne Hall. unfold median_of.
  assert (0 < length sorted)%nat as Hlen by (destruct sorted; [done|simpl; lia]).
  assert (length sorted / 2 < length sorted)%nat as Hmid
    by (apply Nat.div_lt; lia).
  destruct (Nat.even (length sorted)) eqn:Heven.
  - assert (length sorted / 2 - 1 < length sorted)%nat as Hmid' by lia.
    destruct (Hall _ (nth_In sorted 0 Hmid)) as [Hlo1 Hhi1].
    destruct (Hall _ (nth_In sorted 0 Hmid')) as [Hlo2 Hhi2].
    split.
    + apply Qle_shift_div_l; [done|]. lra.
    + apply Qle_shift_div_r; [done|]. lra.
  - apply Hall, nth_In, Hmid.
Qed.

Lemma count_cons x l : count (x :: l) == 1 + count l.
Proof.
  unfold count. simpl length. rewrite Nat2Z.inj_succ, <- Z.add_1_l, inject_Z_plus.
  reflexivity.
Qed.

Lemma count_pos l : l ≠ [] → 0 < count l.
Proof.
  intros Hne. unfold count. destruct l as [|x l]; [done|].
  simpl length. rewrite <- (Zlt_Qlt 0). lia.
Qed.

Lemma total_bounds (l : list Q) (lo hi : Q) :
  (∀ y, In y l → lo <= y ∧ y <= hi) →
  lo * count l <= total l ∧ total l <= hi * count l.
Proof.
  induction l as [|x l IH]; intros Hall.
  - unfold count, total. simpl. change (inject_Z (Z.of_nat 0)) with 0. split; lra.
  - destruct IH as [IHlo IHhi]; [intros y Hy; apply Hall; by right|].
    destruct (Hall x (or_introl eq_refl)) as [Hlo Hhi].
    rewrite count_cons. unfold total in *. simpl. split; lra.
Qed.

(** The mean of a non-empty sequence lies between any bounds of its
    elements. *)
Lemma compute_mean_bounds (l : list Q) (lo hi : Q) :
  l ≠ [] →
  (∀ y, In y l → lo <= y ∧ y <= hi) →
  lo <= compute_mean l ∧ compute_mean l <= hi.
Proof.
  intros Hne Hall. destruct (total_bounds l lo hi Hall) as [Hlo Hhi].
  unfold compute_mean. split.
  - apply Qle_shift_div_l; [by apply count_pos|done].
  - apply Qle_shift_div_r; [by apply count_pos|done].
Qed.

Lemma compute_stddev_nonneg l : (0 <= compute_stddev l)%R.
Proof.
  unfold compute_stddev. destruct (length l =? 1)%nat; [lra|apply sqrt_pos].
Qed.

Lemma compute_stats_bounds (loops : positive) (data : list Q) :
  data ≠ [] →
  ∃ stats,
    compute_stats loops data = Some stats
    ∧ rounds stats = length data
    ∧ min stats <= median stats ∧ median stats <= max stats
    ∧ min stats <= mean stats ∧ mean stats <= max stats
    ∧ (0 <= stddev stats)%R
    ∧ (rounds stats = 1%nat → stddev stats = 0%R).
Proof.
  intros Hne. destruct data as [|x rest]; [done|].
  eexists. split; [reflexivity|]. cbn [min max mean median stddev rounds].
  assert (∀ y, In y (x :: rest) → minimum x rest <= y ∧ y <= maximum x rest) as Hb.
  { destruct (minimum_le x rest) as [Hx Hl], (maximum_ge x rest) as [Hx' Hl'].
    intros y [<-|Hy]; split; auto. }
  split; [done|].
  destruct (median_of_bounds (sort (x :: rest)) (minimum x rest) (maximum x rest)).
  { intros Hnil. apply (f_equal length) in Hnil. rewrite sort_length in Hnil. done. }
  { intros y Hy. apply Hb. by apply sort_In. }
  destruct (compute_mean_bounds (x :: rest) (minimum x rest) (maximum x rest)); [done|done|].
  repeat split; try done.
  - apply compute_stddev_nonneg.
  - intros Hone. unfold compute_stddev. by rewrite Hone.
Qed.

(** C2: a sealed run that is not flagged as errored and has at least one
    round has a [StatsRecord], and in it [min <= median <= max],
    [min <= mean <= max], [stddev >= 0], and [stddev = 0] when there is a
    single round. *)
Theorem stats_record_bounds (run : RoundRunner.BenchmarkRun) :
  RoundRunner.has_error run = false →
  RoundRunner.rounds run ≠ [] →
  ∃ stats,
    stats_of_run (RoundRunner.Sealed, run) = Some stats
    ∧ rounds stats = length (RoundRunner.rounds run)
    ∧ min stats <= median stats ∧ median stats <= max stats
    ∧ min stats <= mean stats ∧ mean stats <= max stats
    ∧ (0 <= stddev stats)%R
    ∧ (rounds stats = 1%nat → stddev stats = 0%R).
Proof.
  intros Herr Hne. unfold stats_of_run. rewrite Herr.
  destruct (compute_stats_bounds (RoundRunner.loops_per_round run)
              (normalize (RoundRunner.loops_per_round run) (RoundRunner.rounds run)))
    as (stats & Hs & Hn & H).
  - unfold normalize. by destruct (RoundRunner.rounds run).
  - exists stats. split; [done|]. split; [|done].
    rewrite Hn. unfold normalize. by rewrite length_map.
Qed.

Lemma stats_record_bounds_witness :
  let run := {| RoundRunner.rounds := [5; 1; 4; 2; 3];
                RoundRunner.loops_per_round := 1;
                RoundRunner.has_error := false |} in
  ∃ stats,
    stats_of_run (RoundRunner.Sealed, run) = Some stats
    ∧ min stats <= median stats ∧ median stats <= max stats.
Proof.
  intros run.
  destruct (stats_record_bounds run) as (stats & Hs & _ & Hlo & Hhi & _).
  - reflexivity.
  - discriminate.
  - exists stats. split; [exact Hs|]. split; [exact Hlo|exact Hhi].
Defined.

End StatsFacts.

End CoreFacts.


(** * Further properties of the plugin hooks *)

Module HookFacts.
Import Plugin PluginFacts.

(** ** pytest_report_header *)

Lemma dict_getitem_Some (d : gmap string pyval) k v :
  d !! k = Some v → dict_getitem d k = Return v.
Proof. intros H. unfold dict_getitem. by rewrite H. Qed.

Lemma dict_getitem_None (d : gmap string pyval) k :
  d !! k = None → dict_getitem d k = Raise (Exn KeyError (repr_str k)).
Proof. intros H. unfold dict_getitem. by rewrite H. Qed.

Ltac header_key H k :=
  let v := fresh "v" in
  let E := fresh "E" in
  destruct (H k) as [v E]; [unfold header_keys; set_solver|];
  rewrite (dict_getitem_Some _ _ _ E), bind_Return.

(** X1: the header is produced exactly when the session's options hold the
    seven entries the template indexes; with one of them missing the hook
    raises [KeyError]. A missing [timer] never stands in the way: it is
    read with [get] and shown as [None]. *)
Theorem report_header_needs_seven_options (str : pyval → string) (version : string)
    (bs : BenchmarkSession) :
  ((∃ header, pytest_report_header str version bs = Return header)
   ↔ ∀ k, k ∈ header_keys → is_Some (options bs !! k))
  ∧ ((∃ k, k ∈ header_keys ∧ options bs !! k = None)
     → raises (pytest_report_header str version bs) KeyError).
Proof.
  assert ((∀ k, k ∈ header_keys → is_Some (options bs !! k))
          → ∃ header, pytest_report_header str version bs = Return header) as Hok.
  { intros H. unfold pytest_report_header.
    header_key H "disable_gc". header_key H "min_rounds". header_key H "min_time".
    header_key H "max_time". header_key H "calibration_precision".
    header_key H "warmup". header_key H "warmup_iterations". eauto. }
  assert ((∃ k, k ∈ header_keys ∧ options bs !! k = None)
          → raises (pytest_report_header str version bs) KeyError) as Hbad.
  { intros (k & Hk & Hnone). unfold pytest_report_header, raises.
    destruct (options bs !! "disable_gc") as [v1|] eqn:E1;
      [rewrite (dict_getitem_Some _ _ _ E1), bind_Return
      |rewrite (dict_getitem_None _ _ E1); eauto].
    destruct (options bs !! "min_rounds") as [v2|] eqn:E2;
      [rewrite (dict_getitem_Some _ _ _ E2), bind_Return
      |rewrite (dict_getitem_None _ _ E2); eauto].
    destruct (options bs !! "min_time") as [v3|] eqn:E3;
      [rewrite (dict_getitem_Some _ _ _ E3), bind_Return
      |rewrite (dict_getitem_None _ _ E3); eauto].
    destruct (options bs !! "max_time") as [v4|] eqn:E4;
      [rewrite (dict_getitem_Some _ _ _ E4), bind_Return
      |rewrite (dict_getitem_None _ _ E4); eauto].
    destruct (options bs !! "calibration_precision") as [v5|] eqn:E5;
      [rewrite (dict_getitem_Some _ _ _ E5), bind_Return
      |rewrite (dict_getitem_None _ _ E5); eauto].
    destruct (options bs !! "warmup") as [v6|] eqn:E6;
      [rewrite (dict_getitem_Some _ _ _ E6), bind_Return
      |rewrite (dict_getitem_None _ _ E6); eauto].
    destruct (options bs !! "warmup_iterations") as [v7|] eqn:E7;
      [|rewrite (dict_getitem_None _ _ E7); eauto].
    exfalso. unfold header_keys in Hk.
    repeat (apply elem_of_cons in Hk as [->|Hk]; [congruence|]).
    by apply elem_of_nil in Hk. }
  split; [split; [|done]|done].
  intros [header Hret] k Hk.
  destruct (options bs !! k) as [v|] eqn:E; [by eexists|].
  destruct Hbad as [msg Hmsg]; [by exists k|]. congruence.
Qed.

(** X2: the header reads nothing of the session but [timer] and the seven
    indexed options: two sessions that agree on these eight entries get the
    same header (or the same error). *)
Theorem report_header_reads_eight_options (str : pyval → string) (version : string)
    (bs bs' : BenchmarkSession) :
  (∀ k, k ∈ "timer" :: header_keys → options bs !! k = options bs' !! k) →
  pytest_report_header str version bs = pytest_report_header str version bs'.
Proof.
  intros H. unfold pytest_report_header, dict_getitem.
  rewrite !H by (unfold header_keys; set_solver). done.
Qed.

Lemma report_header_reads_eight_options_witness :
  let session group :=
    {| skip := false; only := false; disable := false;
       options := {[ "group" := PyStr group; "min_rounds" := PyInt 5 ]};
       logger := {| warnings := []; errors := [] |};
       storage_location := ".benchmarks"; performance_regressions := [] |} in
  pytest_report_header (λ _, "?") "3.0" (session "io")
  = pytest_report_header (λ _, "?") "3.0" (session "cpu").
Proof.
  intros session. apply report_header_reads_eight_options.
  intros k Hk. unfold header_keys in Hk.
  repeat (apply elem_of_cons in Hk as [->|Hk]; [vm_compute; reflexivity|]).
  by apply elem_of_nil in Hk.
Defined.

(** ** pytest_benchmark_generate_machine_info *)


(** X3: whatever the platform, the machine information has exactly the ten
    keys [node], [processor], [machine], [python_compiler],
    [python_implementation], [python_implementation_version],
    [python_version], [python_build], [release] and [system]. *)
Theorem machine_info_has_ten_keys (p : Platform) (k : string) :
  is_Some (pytest_benchmark_generate_machine_info p !! k) ↔ k ∈ machine_info_keys.
Proof.
  rewrite <- elem_of_dom. unfold pytest_benchmark_generate_machine_info.
  rewrite !dom_insert_L, dom_singleton_L. unfold machine_info_keys.
  set_unfold. tauto.
Qed.




(** ** pytest_benchmark_generate_json *)

Section MoreGenerateJson.
Context {D I : Type}.
Implicit Types (benchmarks : list (Bench D)).

(** X5: the report of two lists of benchmarks one after the other holds the
    entries of the first followed by the entries of the second. *)
Theorem generate_json_app (utcnow version : string) benchmarks benchmarks'
    (include_data : bool) (machine_info commit_info : I) :
  oj_benchmarks (pytest_benchmark_generate_json utcnow version
                   (benchmarks ++ benchmarks') include_data machine_info commit_info)
  = oj_benchmarks (pytest_benchmark_generate_json utcnow version
                     benchmarks include_data machine_info commit_info)
    ++ oj_benchmarks (pytest_benchmark_generate_json utcnow version
                        benchmarks' include_data machine_info commit_info).
Proof.
  simpl. rewrite !generate_json_loop_spec. simpl.
  by rewrite filter_app, fmap_app.
Qed.

(** X6: the report holds one entry per benchmark that is not flagged as
    errored, so never more entries than benchmarks, and it holds none
    exactly when every benchmark is flagged. *)
Theorem generate_json_counts (utcnow version : string) benchmarks
    (include_data : bool) (machine_info commit_info : I) :
  let entries := oj_benchmarks (pytest_benchmark_generate_json utcnow version
                                  benchmarks include_data machine_info commit_info) in
  List.length entries = List.length (filter (λ b, has_error b = false) benchmarks)
  ∧ (List.length entries <= List.length benchmarks)%nat
  ∧ (entries = [] ↔ Forall (λ b, has_error b = true) benchmarks).
Proof.
  simpl. rewrite generate_json_loop_spec. simpl. rewrite length_fmap.
  split; [done|]. split; [apply length_filter|].
  assert (∀ l : list (Bench D), (λ b, as_dict b include_data) <$> l = [] ↔ l = []) as ->.
  { intros l. split; [apply fmap_nil_inv|by intros ->]. }
  induction benchmarks as [|b rest IH].
  - split; [constructor|done].
  - destruct (has_error b) eqn:E.
    + rewrite filter_cons_False by (by rewrite E). rewrite IH. split.
      * intros H. by constructor.
      * intros H. by apply Forall_cons in H as [_ H].
    + rewrite filter_cons_True by done. split; [done|].
      intros H. apply Forall_cons in H as [H _]. congruence.
Qed.
End MoreGenerateJson.

(** ** pytest_runtest_setup *)


Lemma check_kwargs_allowed names :
  check_kwargs names = Return tt → Forall (λ n, n ∈ allowed_kwargs) names.
Proof.
  induction names as [|n names IH]; simpl; [constructor|].
  case_bool_decide as Hn; [|done]. intros H. constructor; auto.
Qed.


(** ** The benchmark fixture *)

Lemma benchmark_returns (bs : BenchmarkSession) (request : Request) :
  skip bs = false →
  (∀ k, k ∈ explicit_keywords →
        options bs !! k = None ∧ marker_kwargs (req_node request) !! k = None) →
  ∃ fixture request',
    benchmark bs request = Return (fixture, request')
    ∧ fx_kwargs fixture
      = dict_merge (options bs) (wrap_timer (marker_kwargs (req_node request)))
    ∧ marker_kwargs (req_node request') = wrap_timer (marker_kwargs (req_node request))
    ∧ (get_marker (req_node request') = None ↔ get_marker (req_node request) = None)
    ∧ req_finalizers request' = req_finalizers request ++ [fixture].
Proof.
  intros Hskip Hfree. unfold benchmark. rewrite Hskip.
  set (opts := wrap_timer (marker_kwargs (req_node request))).
  set (node' := {| item_name := _; item_marker := _; funcargs := _ |}).
  rewrite call_BenchmarkFixture_ok.
  - eexists _, _. split; [reflexivity|]. simpl. split; [done|]. split; [|split; [|done]].
    + unfold marker_kwargs, get_marker, node', opts. simpl.
      unfold marker_kwargs, get_marker.
      destruct (item_marker (req_node request)); done.
    + unfold get_marker, node'. simpl. unfold get_marker.
      destruct (item_marker (req_node request)); done.
  - intros k Hk. destruct (Hfree k Hk) as [Ho Hm].
    rewrite dict_merge_lookup_None; [done|].
    unfold opts. rewrite wrap_timer_lookup.
    destruct (decide (k = "timer")); [by rewrite Hm|done].
Qed.

Lemma allowed_not_explicit k : k ∈ allowed_kwargs → k ∈ explicit_keywords → False.
Proof.
  unfold allowed_kwargs, explicit_keywords. intros Ha He.
  repeat (apply elem_of_cons in Ha as [->|Ha];
          [repeat (apply elem_of_cons in He as [He|He]; [discriminate|]);
           by apply elem_of_nil in He|]).
  by apply elem_of_nil in Ha.
Qed.

Lemma setup_accepts_allowed (item : Item) k :
  pytest_runtest_setup item = Return tt →
  is_Some (marker_kwargs item !! k) → k ∈ allowed_kwargs.
Proof.
  unfold pytest_runtest_setup, marker_kwargs.
  destruct (get_marker item) as [marker|]; [|by intros _ [? ?]].
  destruct (mark_args marker); [|done].
  intros Hok Hk. apply check_kwargs_allowed in Hok.
  rewrite Forall_forall in Hok. apply Hok. by apply elem_of_dict_keys.
Qed.

(** X8: setup protects the fixture: for an item [pytest_runtest_setup] has
    accepted, and session options that use none of the names
    [add_stats], [logger], [warner], [disable], the fixture always
    constructs its [BenchmarkFixture], and every keyword it passes is an
    option of the session or one of the nine allowed names. *)
Theorem setup_then_fixture (bs : BenchmarkSession) (request : Request) :
  pytest_runtest_setup (req_node request) = Return tt →
  skip bs = false →
  (∀ k, k ∈ explicit_keywords → options bs !! k = None) →
  ∃ fixture request',
    benchmark bs request = Return (fixture, request')
    ∧ ∀ k, is_Some (fx_kwargs fixture !! k) →
           is_Some (options bs !! k) ∨ k ∈ allowed_kwargs.
Proof.
  intros Hsetup Hskip Hfree.
  destruct (benchmark_returns bs request Hskip) as (fixture & request' & Hret & Hkw & _).
  - intros k Hk. split; [by apply Hfree|].
    destruct (marker_kwargs (req_node request) !! k) eqn:E; [|done].
    exfalso. apply (allowed_not_explicit k); [|done].
    apply (setup_accepts_allowed (req_node request)); [done|by eexists].
  - exists fixture, request'. split; [done|].
    intros k. rewrite Hkw. unfold dict_merge. rewrite lookup_union_is_Some.
    intros [Hm|Ho]; [right|by left].
    apply (setup_accepts_allowed (req_node request)); [done|].
    rewrite wrap_timer_lookup in Hm.
    destruct (decide (k = "timer")); [|done].
    by apply fmap_is_Some in Hm.
Qed.

Lemma setup_then_fixture_witness :
  let marker := {| mark_args := []; mark_kwargs := {[ "group" := PyStr "io" ]} |} in
  let request := {| req_node := {| item_name := "test_read"; item_marker := Some marker;
                                   funcargs := None |};
                    req_finalizers := [] |} in
  let bs := {| skip := false; only := false; disable := false;
               options := {[ "min_rounds" := PyInt 5 ]};
               logger := {| warnings := []; errors := [] |};
               storage_location := ".benchmarks"; performance_regressions := [] |} in
  ∃ fixture request', benchmark bs request = Return (fixture, request').
Proof.
  intros marker request bs.
  destruct (setup_then_fixture bs request) as (fixture & request' & Hret & _).
  - vm_compute. reflexivity.
  - reflexivity.
  - intros k Hk. unfold explicit_keywords in Hk.
    repeat (apply elem_of_cons in Hk as [->|Hk]; [vm_compute; reflexivity|]).
    by apply elem_of_nil in Hk.
  - exists fixture, request'. assumption.
Defined.

(** X9: the timer is wrapped at every use of the marker: the fixture updates
    the marker's dictionary in place, so running it a second time on the
    request the first run left behind passes the timer wrapped in two
    [NameWrapper]s, and has registered two finalizers. *)
Theorem benchmark_fixture_wraps_timer_again (bs : BenchmarkSession) (request : Request)
    (timer : pyval) :
  skip bs = false →
  (∀ k, k ∈ explicit_keywords →
        options bs !! k = None ∧ marker_kwargs (req_node request) !! k = None) →
  marker_kwargs (req_node request) !! "timer" = Some timer →
  ∃ first request' second request'',
    benchmark bs request = Return (first, request')
    ∧ benchmark bs request' = Return (second, request'')
    ∧ fx_kwargs first !! "timer" = Some (PyNameWrapper timer)
    ∧ fx_kwargs second !! "timer" = Some (PyNameWrapper (PyNameWrapper timer))
    ∧ req_finalizers request'' = req_finalizers request ++ [first; second].
Proof.
  intros Hskip Hfree Htimer.
  destruct (benchmark_returns bs request Hskip Hfree)
    as (first & request' & Hret & Hkw & Hafter & _ & Hfin).
  assert (∀ k, k ∈ explicit_keywords →
               options bs !! k = None ∧ marker_kwargs (req_node request') !! k = None)
    as Hfree'.
  { intros k Hk. destruct (Hfree k Hk) as [Ho Hm]. split; [done|].
    rewrite Hafter, wrap_timer_lookup.
    destruct (decide (k = "timer")); [by rewrite Hm|done]. }
  destruct (benchmark_returns bs request' Hskip Hfree')
    as (second & request'' & Hret' & Hkw' & _ & _ & Hfin').
  exists first, request', second, request''. repeat split; try done.
  - rewrite Hkw. apply dict_merge_lookup_Some.
    by rewrite wrap_timer_lookup, decide_True, Htimer.
  - rewrite Hkw', Hafter. apply dict_merge_lookup_Some.
    by rewrite !wrap_timer_lookup, !decide_True, Htimer.
  - by rewrite Hfin', Hfin, <- app_assoc.
Qed.

Lemma benchmark_fixture_wraps_timer_again_witness :
  let marker := {| mark_args := []; mark_kwargs := {[ "timer" := PyFunc "time.time" ]} |} in
  let request := {| req_node := {| item_name := "test_read"; item_marker := Some marker;
                                   funcargs := None |};
                    req_finalizers := [] |} in
  let bs := {| skip := false; only := false; disable := false; options := ∅;
               logger := {| warnings := []; errors := [] |};
               storage_location := ".benchmarks"; performance_regressions := [] |} in
  ∃ first request' second request'',
    benchmark bs request = Return (first, request')
    ∧ benchmark bs request' = Return (second, request'')
    ∧ fx_kwargs second !! "timer"
      = Some (PyNameWrapper (PyNameWrapper (PyFunc "time.time"))).
Proof.
  intros marker request bs.
  destruct (benchmark_fixture_wraps_timer_again bs request (PyFunc "time.time"))
    as (first & request' & second & request'' & H1 & H2 & _ & H4 & _).
  - reflexivity.
  - intros k Hk. unfold explicit_keywords in Hk.
    repeat (apply elem_of_cons in Hk as [->|Hk]; [split; vm_compute; reflexivity|]).
    by apply elem_of_nil in Hk.
  - vm_compute. reflexivity.
  - exists first, request', second, request''. exact (conj H1 (conj H2 H4)).
Defined.

(** X10: without a marker the fixture passes the session's options as they are,
    leaves the item without a marker and registers the one finalizer. *)
Theorem benchmark_fixture_without_marker (bs : BenchmarkSession) (request : Request) :
  skip bs = false →
  get_marker (req_node request) = None →
  (∀ k, k ∈ explicit_keywords → options bs !! k = None) →
  ∃ fixture request',
    benchmark bs request = Return (fixture, request')
    ∧ fx_kwargs fixture = options bs
    ∧ get_marker (req_node request') = None
    ∧ req_finalizers request' = req_finalizers request ++ [fixture].
Proof.
  intros Hskip Hnone Hfree.
  assert (marker_kwargs (req_node request) = ∅) as Hempty
    by (unfold marker_kwargs; by rewrite Hnone).
  destruct (benchmark_returns bs request Hskip)
    as (fixture & request' & Hret & Hkw & _ & Hm & Hfin).
  - intros k Hk. split; [by apply Hfree|]. by rewrite Hempty.
  - exists fixture, request'. split; [done|]. split; [|split; [by apply Hm|done]].
    rewrite Hkw, Hempty. unfold wrap_timer, dict_merge.
    rewrite lookup_empty. apply (left_id ∅ (∪)).
Qed.

Lemma benchmark_fixture_without_marker_witness :
  let request := {| req_node := {| item_name := "test_read"; item_marker := None;
                                   funcargs := None |};
                    req_finalizers := [] |} in
  let bs := {| skip := false; only := false; disable := false;
               options := {[ "min_rounds" := PyInt 5 ]};
               logger := {| warnings := []; errors := [] |};
               storage_location := ".benchmarks"; performance_regressions := [] |} in
  ∃ fixture request',
    benchmark bs request = Return (fixture, request')
    ∧ fx_kwargs fixture = options bs.
Proof.
  intros request bs.
  destruct (benchmark_fixture_without_marker bs request)
    as (fixture & request' & Hret & Hkw & _).
  - reflexivity.
  - reflexivity.
  - intros k Hk. unfold explicit_keywords in Hk.
    repeat (apply elem_of_cons in Hk as [->|Hk]; [vm_compute; reflexivity|]).
    by apply elem_of_nil in Hk.
  - exists fixture, request'. exact (conj Hret Hkw).
Defined.

(** ** pytest_runtest_call *)

(** X11: the two flags together: with both [skip] and [only] set no test runs at
    all; with neither set every test runs; and in every case the outcome
    depends on the item only through whether it carries a
    [BenchmarkFixture]. *)
Theorem runtest_call_flag_combinations (bs : BenchmarkSession) :
  (skip bs = true → only bs = true →
     ∀ item, ∃ msg, pytest_runtest_call bs item = SkipTest msg)
  ∧ (skip bs = false → only bs = false →
     ∀ item, pytest_runtest_call bs item = Yield)
  ∧ (∀ item item',
       (has_benchmark_fixture item ↔ has_benchmark_fixture item') →
       pytest_runtest_call bs item = pytest_runtest_call bs item').
Proof.
  split; [|split].
  - intros Hs Ho item. unfold pytest_runtest_call. rewrite Hs, Ho.
    destruct (isinstance_BenchmarkFixture _); eauto.
  - intros Hs Ho item. unfold pytest_runtest_call. rewrite Hs, Ho.
    by destruct (isinstance_BenchmarkFixture _).
  - intros item item' Hiff.
    pose proof (fixure_is_fixture item) as H1.
    pose proof (fixure_is_fixture item') as H2.
    unfold pytest_runtest_call.
    destruct (isinstance_BenchmarkFixture _) eqn:E1;
      destruct (isinstance_BenchmarkFixture _) eqn:E2 in |- *; try done.
    + assert (has_benchmark_fixture item') as H by (apply Hiff, H1; done).
      apply H2 in H. congruence.
    + assert (has_benchmark_fixture item) as H by (apply Hiff, H2; done).
      apply H1 in H. congruence.
Qed.

(** ** pytest_benchmark_group_stats *)




Lemma group_loop_raise group_by (before after : list BenchStats) bench e groups :
  Forall (λ b, ∃ k, group_key group_by b = Return k) before →
  group_key group_by bench = Raise e →
  group_loop group_by (before ++ bench :: after) groups = Raise e.
Proof.
  intros Hbefore Hbench. revert groups.
  induction Hbefore as [|b before [k Hk] _ IH]; intros groups; simpl.
  - by rewrite Hbench.
  - rewrite Hk, bind_Return. apply IH.
Qed.

(** X13: the first benchmark that has no grouping key decides: the hook raises
    the error of that benchmark, a [NotImplementedError] for an
    unsupported [group_by], a [TypeError] or [KeyError] for a missing
    parameter, and returns no groups for the benchmarks before it. *)
Theorem group_stats_first_error (group_by : string) (before after : list BenchStats)
    (bench : BenchStats) (e : exn) :
  Forall (λ b, ∃ k, group_key group_by b = Return k) before →
  group_key group_by bench = Raise e →
  pytest_benchmark_group_stats (before ++ bench :: after) group_by = Raise e.
Proof.
  intros Hbefore Hbench. unfold pytest_benchmark_group_stats.
  by rewrite (group_loop_raise _ _ _ _ _ _ Hbefore Hbench).
Qed.

Lemma group_stats_first_error_witness :
  let sized := {| group := PyNone; name := "test_fill[3]";
                  fullname := "tests/test_io.py::test_fill[3]";
                  param := PyStr "3"; params := Some {[ "n" := PyInt 3 ]} |} in
  let plain := {| group := PyNone; name := "test_scan";
                  fullname := "tests/test_io.py::test_scan";
                  param := PyNone; params := None |} in
  pytest_benchmark_group_stats ([sized] ++ plain :: [sized]) "param:n"
  = Raise (Exn TypeError "'NoneType' object is not subscriptable").
Proof.
  intros sized plain. apply group_stats_first_error.
  - constructor; [|constructor]. eexists. vm_compute. reflexivity.
  - reflexivity.
Defined.

Lemma split_head_app (sep : ascii) (f rest : string) :
  sep ∉ list_ascii_of_string f →
  split_head sep (f +:+ String sep rest) = f ∧ split_head sep f = f.
Proof.
  induction f as [|c f IH]; simpl; intros Hnot.
  - by rewrite bool_decide_true.
  - rewrite bool_decide_false by (intros ->; apply Hnot; by left).
    destruct IH as [IH1 IH2]; [intros Hin; apply Hnot; by right|].
    by rewrite IH1, IH2.
Qed.

(** X14: grouping by [func] files a benchmark under the text of its name before
    the first bracket: the instances [f[a]] and [f[b]] of a parametrized
    test share the key [f], which is also the key of a test named [f]
    itself. [fullfunc] does the same with the full name. *)
Theorem group_by_func_strips_parameters (bench : BenchStats) (f id : string) :
  "["%char ∉ list_ascii_of_string f →
  (name bench = f +:+ "[" +:+ id ∨ name bench = f →
     group_key "func" bench = Return (PyStr f))
  ∧ (fullname bench = f +:+ "[" +:+ id ∨ fullname bench = f →
     group_key "fullfunc" bench = Return (PyStr f)).
Proof.
  intros Hf. destruct (split_head_app "[" f id Hf) as [H1 H2].
  change (f +:+ "[" +:+ id) with (f +:+ String "[" id).
  split; intros [Hn|Hn].
  - change (group_key "func" bench) with (Return (PyStr (split_head "[" (name bench)))).
    by rewrite Hn, H1.
  - change (group_key "func" bench) with (Return (PyStr (split_head "[" (name bench)))).
    by rewrite Hn, H2.
  - change (group_key "fullfunc" bench)
      with (Return (PyStr (split_head "[" (fullname bench)))).
    by rewrite Hn, H1.
  - change (group_key "fullfunc" bench)
      with (Return (PyStr (split_head "[" (fullname bench)))).
    by rewrite Hn, H2.
Qed.

Lemma group_by_func_strips_parameters_witness :
  let bench := {| group := PyNone; name := "test_fill[3-fast]";
                  fullname := "tests/test_io.py::test_fill[3-fast]";
                  param := PyStr "3-fast"; params := None |} in
  group_key "func" bench = Return (PyStr "test_fill").
Proof.
  intros bench.
  apply (proj1 (group_by_func_strips_parameters bench "test_fill" "3-fast]"
    ltac:(vm_compute; intros H;
          repeat (apply elem_of_cons in H as [H|H]; [discriminate|]);
          by apply elem_of_nil in H))).
  left. reflexivity.
Defined.

(** X15: which field orders the benchmarks of a group: [fullname] for the labels
    [fullname] and [fullfunc], [name] for [group], [name], [func] and
    [param]; and for [param:NAME] it is [fullname] exactly when [full]
    occurs in NAME itself. *)
Theorem group_order_field (param_name : string) :
  contains "full" ("param:" +:+ param_name) = contains "full" param_name
  ∧ contains "full" "fullname" = true ∧ contains "full" "fullfunc" = true
  ∧ contains "full" "group" = false ∧ contains "full" "name" = false
  ∧ contains "full" "func" = false ∧ contains "full" "param" = false.
Proof. repeat split; reflexivity. Qed.

Lemma str_keys_comparable (keys : list pyval) :
  Forall (λ k, k = PyNone ∨ is_str k = true) keys → comparable keys.
Proof.
  intros H. left. eapply Forall_impl; [exact H|].
  intros k [->|Hk]; [done|]. destruct k; try done.
  unfold sort_key, py_or. simpl. by destruct (negb _).
Qed.

Lemma length_concat_nonempty {A} (l : list (list A)) :
  Forall (λ g, g ≠ []) l → (List.length l <= List.length (concat l))%nat.
Proof.
  induction 1 as [|g l Hg _ IH]; simpl; [done|].
  rewrite length_app. destruct g; [done|]. simpl. lia.
Qed.

Lemma group_stats_returns (benchmarks : list BenchStats) (group_by : string)
    (keys : list pyval) :
  Forall2 (λ b k, group_key group_by b = Return k) benchmarks keys →
  comparable keys →
  ∃ groups,
    pytest_benchmark_group_stats benchmarks group_by = Return groups
    ∧ concat groups.*2 ≡ₚ benchmarks
    ∧ Forall (filed_under group_by) groups
    ∧ Forall (λ k, k ∈ keys) groups.*1
    ∧ StronglySorted (λ p q, not_after (sort_key p.1) (sort_key q.1)) groups.
Proof.
  intros Hkeys Hcomp. unfold pytest_benchmark_group_stats.
  destruct (group_loop_spec group_by benchmarks keys [] Hkeys)
    as (g1 & -> & Hperm1 & Hd1 & Hf1 & Hin1); [done|done|].
  rewrite bind_Return.
  destruct (sort_groups_spec group_by g1) as (g2 & -> & Hk2 & Hc2 & Hf2 & Hs2).
  rewrite bind_Return.
  assert (Forall (λ k, k ∈ keys) g2.*1) as Hin2.
  { rewrite Hk2. eapply Forall_impl; [exact Hin1|]. simpl.
    intros k [Hnil|?]; [by apply elem_of_nil in Hnil|done]. }
  assert (∀ cls : pyval → bool,
            Forall (λ k, cls (sort_key k) = true) keys →
            Forall (λ p : pyval * list BenchStats,
                      cls (py_or p.1 (PyStr "")) = true) g2) as Hcls.
  { intros cls Hall. rewrite Forall_forall in Hall.
    apply Forall_forall. intros [k g] Hp. apply Hall.
    rewrite Forall_forall in Hin2. apply Hin2.
    apply list_elem_of_fmap. by exists (k, g). }
  assert (∃ g3, sorted_by (λ pair : pyval * list BenchStats,
                             py_or pair.1 (PyStr "")) g2 = Return g3
                ∧ g3 ≡ₚ g2
                ∧ Sorted (λ p q, not_after (sort_key p.1) (sort_key q.1)) g3)
    as (g3 & -> & Hperm3 & Hs3).
  { destruct Hcomp as [Hstr|Hnum].
    - apply (sorted_by_spec _ is_str py_lt_str_total py_lt_str_asym), Hcls, Hstr.
    - apply (sorted_by_spec _ is_number py_lt_number_total py_lt_number_asym),
        Hcls, Hnum. }
  exists g3. split; [done|]. repeat split.
  - rewrite (concat_perm _ _ (fmap_Permutation snd _ _ Hperm3)), Hc2, Hperm1. done.
  - rewrite Hperm3. by apply Hf2.
  - by rewrite (fmap_Permutation fst _ _ Hperm3).
  - apply Sorted_StronglySorted; [|done]. intros x y z. apply not_after_trans.
Qed.

(** X16: grouping by [name], [func], [fullfunc] or [fullname] cannot fail: for
    every list of benchmarks the hook returns groups whose keys are
    strings, which together hold the benchmarks of the input, each once,
    and which are no more than there are benchmarks. *)
Theorem group_stats_by_name_always_returns (benchmarks : list BenchStats)
    (group_by : string) :
  group_by ∈ ["name"; "func"; "fullfunc"; "fullname"] →
  ∃ groups,
    pytest_benchmark_group_stats benchmarks group_by = Return groups
    ∧ concat groups.*2 ≡ₚ benchmarks
    ∧ Forall (λ k, is_str k = true) groups.*1
    ∧ (List.length groups <= List.length benchmarks)%nat.
Proof.
  intros Hgb.
  assert (∃ keys, Forall2 (λ b k, group_key group_by b = Return k) benchmarks keys
                  ∧ Forall (λ k, is_str k = true) keys) as (keys & Hkeys & Hstr).
  { induction benchmarks as [|b benchmarks (keys & IH1 & IH2)].
    - exists []. split; constructor.
    - assert (∃ s, group_key group_by b = Return (PyStr s)) as [s Hs].
      { repeat (apply elem_of_cons in Hgb as [->|Hgb]; [eexists; reflexivity|]).
        by apply elem_of_nil in Hgb. }
      exists (PyStr s :: keys). split; by constructor. }
  destruct (group_stats_returns benchmarks group_by keys Hkeys)
    as (groups & Hret & Hperm & Hfiled & Hin & _).
  { apply str_keys_comparable. eapply Forall_impl; [exact Hstr|]. by right. }
  exists groups. split; [done|]. split; [done|]. split.
  - eapply Forall_impl; [exact Hin|]. simpl. intros k Hk.
    rewrite Forall_forall in Hstr. by apply Hstr.
  - rewrite <- (Permutation_length Hperm), <- (length_fmap snd groups).
    apply length_concat_nonempty. apply Forall_fmap.
    eapply Forall_impl; [exact Hfiled|]. by intros p [Hne _].
Qed.

Lemma group_stats_by_name_always_returns_witness :
  let bench n := {| group := PyNone; name := n; fullname := "tests/test_io.py::" +:+ n;
                    param := PyNone; params := None |} in
  ∃ groups,
    pytest_benchmark_group_stats [bench "test_b[1]"; bench "test_a"; bench "test_b[2]"]
      "func" = Return groups
    ∧ (List.length groups <= 3)%nat.
Proof.
  intros bench.
  destruct (group_stats_by_name_always_returns
              [bench "test_b[1]"; bench "test_a"; bench "test_b[2]"] "func")
    as (groups & Hret & _ & _ & Hlen).
  - set_solver.
  - exists groups. exact (conj Hret Hlen).
Defined.

Lemma sort_key_before_empty (k : pyval) :
  not_after (sort_key k) (PyStr "") → sort_key k = PyStr "".
Proof.
  unfold not_after. destruct (sort_key k) as [|b|z|s|f|w]; simpl; try done.
  destruct s; [done|]. by intros [= H].
Qed.

(** X17: under the default grouping by [group] (and likewise by [param]), with
    every group a string or [None], the hook always returns, and the
    benchmarks that have no group come before every named group: whatever
    precedes the pair of key [None] has an empty key itself. *)
Theorem group_stats_none_group_first (benchmarks : list BenchStats)
    (group_by : string) (field : BenchStats → pyval) :
  (group_by = "group" ∧ field = group) ∨ (group_by = "param" ∧ field = param) →
  Forall (λ b, field b = PyNone ∨ is_str (field b) = true) benchmarks →
  ∃ groups,
    pytest_benchmark_group_stats benchmarks group_by = Return groups
    ∧ concat groups.*2 ≡ₚ benchmarks
    ∧ ∀ leading g trailing,
        groups = leading ++ (PyNone, g) :: trailing →
        Forall (λ p, sort_key p.1 = PyStr "") leading.
Proof.
  intros Hgb Hfield.
  assert (Forall2 (λ b k, group_key group_by b = Return k) benchmarks (field <$> benchmarks))
    as Hkeys.
  { apply Forall2_fmap_r, Forall_Forall2_diag, Forall_forall. intros b _.
    destruct Hgb as [[-> ->]|[-> ->]]; reflexivity. }
  destruct (group_stats_returns benchmarks group_by _ Hkeys)
    as (groups & Hret & Hperm & _ & _ & Hsorted).
  { apply str_keys_comparable. by apply Forall_fmap. }
  exists groups. split; [done|]. split; [done|].
  clear Hret Hperm. intros leading g trailing ->.
  induction leading as [|p leading IH]; [constructor|].
  apply StronglySorted_inv in Hsorted as [Hsorted Hall].
  constructor; [|by apply IH].
  rewrite Forall_app, Forall_cons in Hall. destruct Hall as (_ & Hp & _).
  by apply sort_key_before_empty.
Qed.

Lemma group_stats_none_group_first_witness :
  let bench g n := {| group := g; name := n; fullname := "tests/test_io.py::" +:+ n;
                      param := PyNone; params := None |} in
  let benchmarks := [bench (PyStr "read") "test_scan"; bench PyNone "test_misc"] in
  ∃ groups,
    pytest_benchmark_group_stats benchmarks "group" = Return groups
    ∧ concat groups.*2 ≡ₚ benchmarks.
Proof.
  intros bench benchmarks.
  destruct (group_stats_none_group_first benchmarks "group" group)
    as (groups & Hret & Hperm & _).
  - left. split; reflexivity.
  - constructor; [by right|]. constructor; [by left|constructor].
  - exists groups. exact (conj Hret Hperm).
Defined.

(** ** pytest_terminal_summary *)

(** X18: the hook never swallows an error: in whatever namespace it runs, it
    returns normally exactly when [display] does; it never touches the
    logged warnings, and it logs at most one error. *)
Theorem terminal_summary_never_swallows (globals : list (string * binding))
    (format_exc : exn → string) (display : result unit) (log : Logger) :
  let outcome := pytest_terminal_summary globals format_exc display log in
  (outcome.1 = Return tt ↔ display = Return tt)
  ∧ ((∃ e, display = Raise e) → ∃ e', outcome.1 = Raise e')
  ∧ warnings outcome.2 = warnings log
  ∧ (errors outcome.2 = errors log ∨ ∃ text, errors outcome.2 = errors log ++ [text]).
Proof.
  assert (∀ (e e' : exn) (l : Logger),
            ((Raise e' : result unit) = Return tt ↔ (Raise e : result unit) = Return tt)
            ∧ ((∃ e0, (Raise e : result unit) = Raise e0)
               → ∃ e0, (Raise e' : result unit) = Raise e0)) as Hraise.
  { intros e e' l. split; [split; discriminate|]. intros _. by exists e'. }
  unfold pytest_terminal_summary. destruct display as [[]|e].
  - simpl. split; [done|]. split; [by intros [e He]|]. split; [done|by left].
  - destruct (load_class globals "PerformanceRegression") as [c|e1]; simpl.
    + destruct (isinstance_exn e c); simpl.
      * destruct (Hraise e e log) as [? ?].
        split; [assumption|]. split; [assumption|]. split; [done|by left].
      * destruct (load_class globals "Exception") as [c'|e2]; simpl.
        -- destruct (Hraise e e log) as [? ?].
           destruct (isinstance_exn e c'); simpl;
             (split; [assumption|]; split; [assumption|]; split; [done|]).
           ++ right. by eexists.
           ++ by left.
        -- destruct (Hraise e e2 log) as [? ?].
           split; [assumption|]. split; [assumption|]. split; [done|by left].
    + destruct (Hraise e e1 log) as [? ?].
      split; [assumption|]. split; [assumption|]. split; [done|by left].
Qed.

End HookFacts.
